(** * ASL glove tools: the serial logger's trial segmenter and the
      calibration capture, embedded from the Python sources.

    - [PyStr]         : the [str] methods the sources call
    - [Csv]           : [csv.writer] as [main] sets it up, and reading back
    - [GloveLogger]   : src/firmware/glove_logger.py
    - [Calibration]   : src/calibration_capture.py and
                        src/tools/python_calibration.py
    - [GloveLoggerMain], [Ports], [Normalization]
                      : the port choice and the command channel of the
                        logger, port detection and the normalization of
                        the calibration scripts
    - [FloatRank], [Extremes]
                      : the order of the floats, and what a maximum is
    - [PyStrFacts], [Segmenter], [CsvFacts], [Sink], [CalibrationFacts],
      [SegmenterMore], [LoggerMainFacts], [PortsFacts], [FloatOrder],
      [CalibrationMore], [NormalizationFacts]
                      : the properties

    Text is modelled as [string] (a sequence of bytes, the UTF-8 encoding of
    the Python [str]).  The only characters the code looks at are the ASCII
    characters [,] and [#] and the ASCII prefix [t_s,]; UTF-8 never uses an
    ASCII byte inside a multi-byte character, so [startswith], [count] and
    [split] give the same answer on the bytes as on the code points. *)

From Stdlib Require Import List Arith Lia Bool.
From Stdlib Require Import Strings.Ascii Strings.String.
From Stdlib Require Import Numbers.DecimalString.
From Stdlib Require Import ZArith.
From Stdlib Require Uint63 Floats.
Import ListNotations.

Local Open Scope string_scope.
Local Open Scope list_scope.
Local Open Scope nat_scope.

(** ** Python string primitives used by the sources *)

Module PyStr.

(** [s.startswith(p)] *)
Definition startswith (s p : string) : bool := String.prefix p s.

(** [s.count(c)] for a one-character needle [c]. *)
Fixpoint count (s : string) (c : ascii) : nat :=
  match s with
  | EmptyString => 0
  | String a s' => (if Ascii.eqb a c then 1 else 0) + count s' c
  end.

(** [s.split(c)] for a one-character separator [c]: never empty, an empty
    string gives one empty part. *)
Fixpoint split (s : string) (c : ascii) : list string :=
  match s with
  | EmptyString => [EmptyString]
  | String a s' =>
      if Ascii.eqb a c then EmptyString :: split s' c
      else match split s' c with
           | [] => [String a EmptyString]
           | p :: ps => String a p :: ps
           end
  end.

(** [c.join(parts)] *)
Fixpoint join (c : ascii) (parts : list string) : string :=
  match parts with
  | [] => EmptyString
  | [p] => p
  | p :: ps => (p ++ String c (join c ps))%string
  end.

(** [str(n)] for a non-negative integer. *)
Definition str_of_nat (n : nat) : string :=
  NilEmpty.string_of_uint (Nat.to_uint n).

(** [parts[-1]] on a list of strings (the default is never used on the
    result of [split], which is not empty). *)
Definition last_part (parts : list string) : string := List.last parts EmptyString.

End PyStr.

(** ** The csv module as [main] and [serial_reader] use it

    [csv.writer(f)] with no argument is the excel dialect: delimiter [,],
    quote character (code 34), doubled quotes, line terminator CR LF and
    minimal quoting.  The file is opened with [newline=""], so the text
    reaches the file as the writer produced it. *)

Module Csv.
Import PyStr.

Definition comma : ascii := ","%char.
Definition dquote : ascii := "034"%char.
Definition cr : ascii := "013"%char.
Definition lf : ascii := "010"%char.

(** The characters that make minimal quoting quote a field: the delimiter,
    the quote character and the characters of the line terminator. *)
Definition special (c : ascii) : bool :=
  Ascii.eqb c comma || Ascii.eqb c dquote || Ascii.eqb c cr || Ascii.eqb c lf.

Fixpoint needs_quotes (f : string) : bool :=
  match f with
  | EmptyString => false
  | String c f' => special c || needs_quotes f'
  end.

Fixpoint double_quotes (f : string) : string :=
  match f with
  | EmptyString => EmptyString
  | String c f' =>
      if Ascii.eqb c dquote then String dquote (String dquote (double_quotes f'))
      else String c (double_quotes f')
  end.

Definition write_field (f : string) : string :=
  if needs_quotes f
  then String dquote (double_quotes f ++ String dquote EmptyString)%string
  else f.

(** [writer.writerow(r)]: the text appended to the file.  A row made of one
    empty field is written as a pair of quotes. *)
Definition writerow (r : list string) : string :=
  ((match r with
    | [EmptyString] => String dquote (String dquote EmptyString)
    | _ => join comma (map write_field r)
    end) ++ String cr (String lf EmptyString))%string.

Fixpoint file_text (rows : list (list string)) : string :=
  match rows with
  | [] => EmptyString
  | r :: rows' => (writerow r ++ file_text rows')%string
  end.

(** Reading the file back: [csv.reader] of the same dialect, as an automaton
    over the characters of the text.  The states are those of the module's
    parser; [EAT_CRNL] is the state after a CR that ended a record, where a
    following LF belongs to the same line end. *)
Inductive parser_state :=
| START_RECORD | START_FIELD | IN_FIELD
| IN_QUOTED_FIELD | QUOTE_IN_QUOTED_FIELD | EAT_CRNL.

Record parser := mkParser {
  state : parser_state;
  field : string;
  fields : list string;
  records : list (list string)
}.

Definition add_char (st : parser_state) (p : parser) (c : ascii) : parser :=
  mkParser st (field p ++ String c EmptyString)%string (fields p) (records p).

Definition save_field (st : parser_state) (p : parser) : parser :=
  mkParser st EmptyString (fields p ++ [field p]) (records p).

Definition end_record (st : parser_state) (p : parser) : parser :=
  mkParser st EmptyString [] (records p ++ [fields p]).

Definition start_field (p : parser) (c : ascii) : parser :=
  if Ascii.eqb c lf then end_record START_RECORD (save_field START_FIELD p)
  else if Ascii.eqb c cr then end_record EAT_CRNL (save_field START_FIELD p)
  else if Ascii.eqb c dquote then
    mkParser IN_QUOTED_FIELD (field p) (fields p) (records p)
  else if Ascii.eqb c comma then save_field START_FIELD p
  else add_char IN_FIELD p c.

Definition start_record (p : parser) (c : ascii) : parser :=
  if Ascii.eqb c lf then end_record START_RECORD p
  else if Ascii.eqb c cr then end_record EAT_CRNL p
  else start_field p c.

Definition step (p : parser) (c : ascii) : parser :=
  match state p with
  | START_RECORD => start_record p c
  | EAT_CRNL =>
      if Ascii.eqb c lf
      then mkParser START_RECORD (field p) (fields p) (records p)
      else start_record p c
  | START_FIELD => start_field p c
  | IN_FIELD =>
      if Ascii.eqb c lf then end_record START_RECORD (save_field IN_FIELD p)
      else if Ascii.eqb c cr then end_record EAT_CRNL (save_field IN_FIELD p)
      else if Ascii.eqb c comma then save_field START_FIELD p
      else add_char IN_FIELD p c
  | IN_QUOTED_FIELD =>
      if Ascii.eqb c dquote
      then mkParser QUOTE_IN_QUOTED_FIELD (field p) (fields p) (records p)
      else add_char IN_QUOTED_FIELD p c
  | QUOTE_IN_QUOTED_FIELD =>
      if Ascii.eqb c dquote then add_char IN_QUOTED_FIELD p c
      else if Ascii.eqb c comma then save_field START_FIELD p
      else if Ascii.eqb c lf
      then end_record START_RECORD (save_field IN_FIELD p)
      else if Ascii.eqb c cr
      then end_record EAT_CRNL (save_field IN_FIELD p)
      else add_char IN_FIELD p c
  end.

Fixpoint feed (p : parser) (text : string) : parser :=
  match text with
  | EmptyString => p
  | String c text' => feed (step p c) text'
  end.

(** At the end of the text a record that no line end closed is still
    returned. *)
Definition finish (p : parser) : list (list string) :=
  match state p with
  | START_RECORD | EAT_CRNL => records p
  | _ => records p ++ [fields p ++ [field p]]
  end.

(** The text [writerow] puts after the first field of a row. *)
Fixpoint rest_text (rest : list string) : string :=
  match rest with
  | [] => String cr (String lf EmptyString)
  | g :: rest' => String comma (write_field g ++ rest_text rest')%string
  end.

Definition read (text : string) : list (list string) :=
  finish (feed (mkParser START_RECORD EmptyString [] []) text).

End Csv.

(** ** src/firmware/glove_logger.py *)

Module GloveLogger.
Import PyStr.

Definition comma : ascii := ","%char.

Definition HEADER : string :=
  "t_s,flex1,flex2,flex3,flex4,flex5,roll_deg,pitch_deg,ax_g,ay_g,az_g,label,trial_id".
Definition ROWS_PER_TRIAL : nat := 75.

(** A row is what [line.split(",")] returns. *)
Abbreviation row := (list string) (only parsing).

(** The local variables of [serial_reader] that survive an iteration. *)
Record reader_state := mkState {
  current_rows : list row;
  trial_id_active : option string
}.

Definition initial_state : reader_state :=
  {| current_rows := []; trial_id_active := None |}.

(** What an iteration does to the outside, in program order:
    - [Echo l]      is [print(line, flush=True)];
    - [WriteRow r]  is [writer.writerow(r)];
    - [Saved t n]   is [print(f"[+] Saved trial {t} ({n} rows)")]
                    (the quota branch prints the literal 75). *)
Inductive effect :=
| Echo (line : string)
| WriteRow (r : row)
| Saved (tid : string) (n : nat).

(** The text an effect puts on standard output, if any. *)
Definition stdout_text (e : effect) : option string :=
  match e with
  | Echo l => Some l
  | WriteRow _ => None
  | Saved t n => Some ("[+] Saved trial " ++ t ++ " (" ++ str_of_nat n ++ " rows)")%string
  end.

(** The condition of line 49. *)
Definition is_data_row (line : string) : bool :=
  (count line comma =? 12) && negb (startswith line "#").

(** Lines 53-73: the body run for a data row, [parts] being the split
    line.  Returns the new state and the effects of the two flushes. *)
Definition segment (st : reader_state) (parts : row) : reader_state * list effect :=
  let tid := last_part parts in
  let active0 :=
    match trial_id_active st with
    | None => tid
    | Some a => a
    end in
  let '(rows1, active1, out1) :=
    if String.eqb tid active0 then (current_rows st, active0, [])
    else ([], tid,
          map WriteRow (current_rows st)
            ++ [Saved active0 (List.length (current_rows st))]) in
  let rows2 := rows1 ++ [parts] in
  if List.length rows2 =? ROWS_PER_TRIAL
  then ({| current_rows := []; trial_id_active := Some active1 |},
        out1 ++ map WriteRow rows2 ++ [Saved active1 75])
  else ({| current_rows := rows2; trial_id_active := Some active1 |}, out1).

(** Lines 38-73: one iteration of the loop, on the decoded and stripped
    [line]. *)
Definition process_line (st : reader_state) (line : string)
  : reader_state * list effect :=
  if String.eqb line "" then (st, [])
  else if startswith line "t_s," then (st, [])
  else if is_data_row line then
    let '(st', out) := segment st (split line comma) in
    (st', Echo line :: out)
  else (st, [Echo line]).

(** The loop of [serial_reader] over the lines it reads before it stops
    (the flag [running] is cleared, or a read raises and the handler
    breaks): nothing happens after the last iteration. *)
Fixpoint run (st : reader_state) (lines : list string)
  : reader_state * list effect :=
  match lines with
  | [] => (st, [])
  | l :: ls =>
      let '(st1, out1) := process_line st l in
      let '(st2, out2) := run st1 ls in
      (st2, out1 ++ out2)
  end.

Definition serial_reader (lines : list string) : reader_state * list effect :=
  run initial_state lines.

(** The rows handed to [writer.writerow], in order. *)
Fixpoint written (out : list effect) : list row :=
  match out with
  | [] => []
  | WriteRow r :: out' => r :: written out'
  | _ :: out' => written out'
  end.

(** The acknowledgments printed, in order. *)
Fixpoint acks (out : list effect) : list (string * nat) :=
  match out with
  | [] => []
  | Saved t n :: out' => (t, n) :: acks out'
  | _ :: out' => acks out'
  end.

(** Lines 98-105 of [main]: the file is created, the header is written
    once, then the reader writes through the same writer.  The store is
    the sequence of rows given to the writer. *)
Definition store (lines : list string) : list row :=
  split HEADER comma :: written (snd (serial_reader lines)).

(** The text of the file once the reader has stopped. *)
Definition csv_file (lines : list string) : string :=
  Csv.file_text (store lines).

(** *** Observations used to state the properties *)

(** The classes of section 4.1, read off the tests of lines 40, 42 and 49 in
    the order the code makes them. *)
Inductive line_class := Empty | StaleHeader | Comment | Data | Malformed.

Definition classify (line : string) : line_class :=
  if String.eqb line "" then Empty
  else if startswith line "t_s," then StaleHeader
  else if startswith line "#" then Comment
  else if count line comma =? 12 then Data
  else Malformed.

Definition is_data (line : string) : bool :=
  match classify line with Data => true | _ => false end.

(** [parts[-1]] of the split line. *)
Definition tid_of (line : string) : string := last_part (split line comma).

(** The rows of the lines that reach the segmenter, in arrival order. *)
Definition data_rows (lines : list string) : list row :=
  map (fun l => split l comma) (filter is_data lines).

(** A flush as the sink sees it: the rows written since the previous
    acknowledgment, with the id and the count the acknowledgment reports. *)
Record completed_trial := mkTrial {
  ct_id : string;
  ct_count : nat;
  ct_rows : list row
}.

Fixpoint flushes_from (pending : list row) (out : list effect)
  : list completed_trial :=
  match out with
  | [] => []
  | Echo _ :: out' => flushes_from pending out'
  | WriteRow r :: out' => flushes_from (pending ++ [r]) out'
  | Saved t n :: out' => mkTrial t n pending :: flushes_from [] out'
  end.

Definition flushes (out : list effect) : list completed_trial :=
  flushes_from [] out.

(** The shape of what the reader emits: echoes, and whole flushes (the rows
    of the buffer, then the acknowledgment with their number). *)
Inductive flush_trace : list effect -> Prop :=
| ft_nil : flush_trace []
| ft_echo (l : string) (o : list effect) :
    flush_trace o -> flush_trace (Echo l :: o)
| ft_flush (rs : list row) (t : string) (o : list effect) :
    flush_trace o ->
    flush_trace (map WriteRow rs ++ Saved t (List.length rs) :: o).

(** A well-formed data line of trial [tid], for the scenarios. *)
Definition sample_line (tid : string) : string :=
  ("0.10,512,498,530,477,501,1.5,-0.7,0.01,0.02,0.98,A," ++ tid)%string.

Definition row_eq_dec : forall r1 r2 : row, {r1 = r2} + {r1 <> r2} :=
  list_eq_dec string_dec.

End GloveLogger.

(** ** src/calibration_capture.py and src/tools/python_calibration.py

    Sensor values are Python floats, that is binary64 numbers: [float].
    [float(x)] is a parameter [pyfloat] of the model ([None] stands for
    [ValueError]); a run of the collecting loop is given by what each
    [readline] of the time window returned. *)

Module Calibration.
Import PyStr.
Import PrimFloat.

(** What one [readline] gives: the decoded and stripped text (empty when
    nothing arrived before the timeout), or an exception. *)
Inductive read :=
| ReadLine (line : string)
| ReadFails.

(** The exceptions the calibration code raises or lets through. *)
Inductive error :=
| NoSensorData          (* Exception("No sensor data collected!") *)
| ConnectFailed         (* Exception("Failed to connect to glove") *)
| InhomogeneousShape    (* numpy: rows of different lengths *)
| ZeroSizeArray.        (* numpy: maximum of an empty array *)

Definition error_message (e : error) : string :=
  match e with
  | NoSensorData => "No sensor data collected!"
  | ConnectFailed => "Failed to connect to glove"
  | InhomogeneousShape => "setting an array element with a sequence"
  | ZeroSizeArray => "zero-size array to reduction operation"
  end.

Inductive result (A : Type) :=
| Return (a : A)
| Raise (e : error).
Arguments Return {A} a.
Arguments Raise {A} e.

Definition bind {A B : Type} (r : result A) (k : A -> result B) : result B :=
  match r with
  | Return a => k a
  | Raise e => Raise e
  end.

Notation "x <- c1 ;; c2" := (bind c1 (fun x => c2))
  (at level 61, c1 at next level, right associativity).

(** [l[i:j]] for [0 <= i <= j]. *)
Definition slice {A : Type} (i j : nat) (l : list A) : list A :=
  firstn (j - i) (skipn i l).

Fixpoint zip_with {A : Type} (f : A -> A -> A) (l1 l2 : list A) : list A :=
  match l1, l2 with
  | a :: l1', b :: l2' => f a b :: zip_with f l1' l2'
  | _, _ => []
  end.

(** *** numpy on a list of rows *)

(** The step of [np.max] and [np.min] along axis 0, [a] being what the
    rows before gave and [b] the value of the next row: a NaN is kept, and
    of two equal values the later one is taken (the two zeros are equal and
    differ in sign only; which of them numpy keeps depends on the machine,
    and no property below depends on it). *)
Definition np_maximum (a b : float) : float :=
  if is_nan a then a else if ltb b a then a else b.
Definition np_minimum (a b : float) : float :=
  if is_nan a then a else if ltb a b then a else b.

(** The count of rows as a float, for the division of the mean. *)
Definition of_count (n : nat) : float :=
  of_uint63 (Uint63.of_Z (Z.of_nat n)).

(** A reduction along axis 0 of rows of at least two values: the rows are
    combined one after the other, element by element, starting from the
    first row.  (Rows of a single value make one contiguous column, which
    numpy sums in blocks; the scripts never collect such rows.) *)
Definition reduce_rows (f : float -> float -> float) (r0 : list float)
    (rest : list (list float)) : list float :=
  fold_left (zip_with f) rest r0.

(** [np.array(data)] succeeds when the rows have one length. *)
Definition rectangular (data : list (list float)) : bool :=
  match data with
  | [] => true
  | r0 :: rest =>
      forallb (fun r => List.length r =? List.length r0) rest
  end.

(** [np.mean(data, axis=0).tolist()] on the rows [r0 :: rest]. *)
Definition np_mean_axis0 (r0 : list float) (rest : list (list float))
  : result (list float) :=
  if rectangular (r0 :: rest)
  then Return (map (fun s => div s (of_count (List.length (r0 :: rest))))
                 (reduce_rows add r0 rest))
  else Raise InhomogeneousShape.

Definition np_max_axis0 (data : list (list float)) : result (list float) :=
  match data with
  | [] => Raise ZeroSizeArray
  | r0 :: rest =>
      if rectangular data then Return (reduce_rows np_maximum r0 rest)
      else Raise InhomogeneousShape
  end.

Definition np_min_axis0 (data : list (list float)) : result (list float) :=
  match data with
  | [] => Raise ZeroSizeArray
  | r0 :: rest =>
      if rectangular data then Return (reduce_rows np_minimum r0 rest)
      else Raise InhomogeneousShape
  end.

(** *** Parsing a line into numbers *)

Section Parsing.
Variable pyfloat : string -> option float.

(** [[float(x) for x in tokens]]; [None] when some [float(x)] raises. *)
Fixpoint parse_values (tokens : list string) : option (list float) :=
  match tokens with
  | [] => Some []
  | x :: xs =>
      match pyfloat x with
      | None => None
      | Some v =>
          match parse_values xs with
          | None => None
          | Some vs => Some (v :: vs)
          end
      end
  end.

(** *** calibration_capture.py, class GloveCalibrationCapture *)

(** Lines 113-128: the sample a line yields, if it yields one. *)
Definition sample_of_line (line : string) : option (list float) :=
  if startswith line "#" || String.eqb line "" then None
  else match parse_values (split line ","%char) with
       | None => None
       | Some values =>
           if 5 <=? List.length values then Some (slice 1 6 values) else None
       end.

(** Lines 110-132: the loop over the reads of the time window; a read that
    raises ends it. *)
Fixpoint collect_loop (data : list (list float)) (reads : list read)
  : list (list float) :=
  match reads with
  | [] => data
  | ReadFails :: _ => data
  | ReadLine line :: reads' =>
      match sample_of_line line with
      | Some flex_values => collect_loop (data ++ [flex_values]) reads'
      | None => collect_loop data reads'
      end
  end.

(** [collect_calibration_data]: the list starts empty
    ([start_data_collection]), and an empty list after the loop raises. *)
Definition collect_calibration_data (reads : list read)
  : result (list (list float)) :=
  match collect_loop [] reads with
  | [] => Raise NoSensorData
  | data => Return data
  end.

End Parsing.

(** The dictionary [calculate_calibration_values] returns. *)
Record calibration_values := mkValues {
  sensorBaselines : list float;
  sensorMaximums : list float;
  sensorMinimums : list float;
  calibrationTimestamp : Z
}.

(** [now_ms] is [int(time.time() * 1000)] at the call.  On the empty list
    [np.mean] gives nan with a warning and [np.max] raises. *)
Definition calculate_calibration_values (now_ms : Z)
    (data : list (list float)) : result calibration_values :=
  match data with
  | [] => Raise ZeroSizeArray
  | r0 :: rest =>
      baseline_values <- np_mean_axis0 r0 rest ;;
      maximum_values <- np_max_axis0 data ;;
      minimum_values <- np_min_axis0 data ;;
      Return (mkValues baseline_values maximum_values minimum_values now_ms)
  end.

(** The record both scripts build and save. *)
Record calibration_data := mkData {
  cd_sensorBaselines : list float;
  cd_sensorMaximums : list float;
  cd_calibrationTimestamp : Z
}.

Record calibration_record := mkRecord {
  username : string;
  isCalibrated : bool;
  calibrationData : calibration_data
}.

Section Runs.
Variable pyfloat : string -> option float.

(** [GloveCalibrationCapture.run_full_calibration]: [connected] is the
    result of [connect()], [rest_reads] and [flex_reads] are the reads of
    the two phases, [now_ms] the time when the record is built (the
    timestamps of the two intermediate dictionaries are not used). *)
Definition run_full_calibration (connected : bool)
    (rest_reads flex_reads : list read) (now_ms : Z) (user : string)
  : result calibration_record :=
  if negb connected then Raise ConnectFailed
  else
    rest_data <- collect_calibration_data pyfloat rest_reads ;;
    rest_calibration <- calculate_calibration_values now_ms rest_data ;;
    flex_data <- collect_calibration_data pyfloat flex_reads ;;
    flex_calibration <- calculate_calibration_values now_ms flex_data ;;
    Return (mkRecord user true
              (mkData (sensorBaselines rest_calibration)
                      (sensorMaximums flex_calibration) now_ms)).

(** [main] without [--test]: the record is saved when no exception reached
    the handler. *)
Definition saved_calibration (connected : bool)
    (rest_reads flex_reads : list read) (now_ms : Z) (user : string)
  : option calibration_record :=
  match run_full_calibration connected rest_reads flex_reads now_ms user with
  | Return r => Some r
  | Raise _ => None
  end.

(** *** tools/python_calibration.py, class GloveCalibrator *)

(** [read_sensor_data]: every exception is caught and gives [None]. *)
Definition read_sensor_data (r : read) : option (list float) :=
  match r with
  | ReadFails => None
  | ReadLine line =>
      if String.eqb line "" then None
      else match parse_values pyfloat (split line ","%char) with
           | None => None
           | Some values =>
               if 5 <=? List.length values then Some (slice 0 5 values) else None
           end
  end.

Fixpoint calibrator_samples (reads : list read) : list (list float) :=
  match reads with
  | [] => []
  | r :: reads' =>
      match read_sensor_data r with
      | Some data => data :: calibrator_samples reads'
      | None => calibrator_samples reads'
      end
  end.

(** [GloveCalibrator.collect_calibration_data]: the averaged values. *)
Definition calibrator_collect (reads : list read) : result (list float) :=
  match calibrator_samples reads with
  | [] => Raise NoSensorData
  | r0 :: rest => np_mean_axis0 r0 rest
  end.

Definition calibrator_run_full_calibration (connected : bool)
    (rest_reads flex_reads : list read) (now_ms : Z) (user : string)
  : result calibration_record :=
  if negb connected then Raise ConnectFailed
  else
    baseline_values <- calibrator_collect rest_reads ;;
    maximum_values <- calibrator_collect flex_reads ;;
    Return (mkRecord user true (mkData baseline_values maximum_values now_ms)).

Definition calibrator_saved_calibration (connected : bool)
    (rest_reads flex_reads : list read) (now_ms : Z) (user : string)
  : option calibration_record :=
  match calibrator_run_full_calibration connected rest_reads flex_reads now_ms user with
  | Return r => Some r
  | Raise _ => None
  end.

End Runs.

(** *** Observations used to state the properties *)

(** Channel [j] of the samples, in the order of collection. *)
Definition channel (j : nat) (data : list (list float)) : list float :=
  map (fun r => nth j r zero) data.

(** The mean of a non-empty sequence of floats: the sum from left to right,
    divided by the count. *)
Definition mean (xs : list float) : float :=
  match xs with
  | [] => nan
  | x :: xs' => div (fold_left add xs' x) (of_count (List.length xs))
  end.

Definition maximum (xs : list float) : float :=
  match xs with
  | [] => nan
  | x :: xs' => fold_left np_maximum xs' x
  end.

Definition minimum (xs : list float) : float :=
  match xs with
  | [] => nan
  | x :: xs' => fold_left np_minimum xs' x
  end.

(** [float(x)] on the tokens of the scenarios: unsigned decimal integers of
    at most 15 digits, which binary64 holds exactly.  Every other token is
    refused here, so this stands for [float] on those tokens only. *)
Fixpoint digits_value (acc : Z) (s : string) : option Z :=
  match s with
  | EmptyString => Some acc
  | String c s' =>
      let d := nat_of_ascii c in
      if (48 <=? d) && (d <=? 57)
      then digits_value (Z.add (Z.mul 10%Z acc)
                           (Z.of_nat (d - 48))) s'
      else None
  end.

Definition float_of_digits (s : string) : option float :=
  if (1 <=? String.length s) && (String.length s <=? 15)
  then option_map (fun z => of_uint63 (Uint63.of_Z z)) (digits_value 0%Z s)
  else None.

End Calibration.

(** ** The rest of glove_logger.py: port choice and command channel *)

Module GloveLoggerMain.
Import PyStr GloveLogger.

(** [pick_port], lines 22-29: [ports] are the devices of the listed ports,
    [sel] is the integer the operator typed.  [ports[sel]] counts a negative
    index from the end; [None] stands for [IndexError]. *)
Definition pick_port (ports : list string) (sel : Z) : option string :=
  let n := Z.of_nat (List.length ports) in
  if (0 <=? sel)%Z then nth_error ports (Z.to_nat sel)
  else if (- n <=? sel)%Z then nth_error ports (Z.to_nat (n + sel))
  else None.

(** The lines of the menu [pick_port] prints, one per port. *)
Fixpoint menu_from (i : nat) (ports : list string) : list string :=
  match ports with
  | [] => []
  | p :: ports' =>
      (" [" ++ str_of_nat i ++ "] " ++ p)%string :: menu_from (S i) ports'
  end.

Definition newline : ascii := "010"%char.

(** Line 114: the bytes of [(cmd + "\n").encode()]. *)
Definition command_bytes (cmd : string) : string :=
  (cmd ++ String newline EmptyString)%string.

(** Lines 112-114: what the command loop of [main] writes to the device
    for the commands typed, in order. *)
Fixpoint command_channel (cmds : list string) : string :=
  match cmds with
  | [] => EmptyString
  | cmd :: cmds' => (command_bytes cmd ++ command_channel cmds')%string
  end.

(** The lines echoed on standard output, in order. *)
Fixpoint echoes (out : list effect) : list string :=
  match out with
  | [] => []
  | Echo l :: out' => l :: echoes out'
  | _ :: out' => echoes out'
  end.

(** The test of lines 40-46: the line is printed. *)
Definition is_echoed (line : string) : bool :=
  negb (String.eqb line "") && negb (startswith line "t_s,").

(** A line without quote, CR or LF: none of its fields is quoted by the
    writer. *)
Fixpoint csv_plain (line : string) : bool :=
  match line with
  | EmptyString => true
  | String c line' =>
      negb (Ascii.eqb c Csv.dquote || Ascii.eqb c Csv.cr || Ascii.eqb c Csv.lf)
      && csv_plain line'
  end.

(** A received line as a line of the file. *)
Definition file_line (line : string) : string :=
  (line ++ String Csv.cr (String Csv.lf EmptyString))%string.

Fixpoint file_lines (lines : list string) : string :=
  match lines with
  | [] => EmptyString
  | l :: lines' => (file_line l ++ file_lines lines')%string
  end.

(** The rows of the buffer carry the active trial id, and are fewer than 75. *)
Definition buffer_ok (st : reader_state) : Prop :=
  Forall (fun r => trial_id_active st = Some (last_part r)) (current_rows st)
  /\ List.length (current_rows st) < ROWS_PER_TRIAL.

Definition flush_ok (ct : completed_trial) : Prop :=
  Forall (fun r => last_part r = ct_id ct) (ct_rows ct)
  /\ ct_count ct = List.length (ct_rows ct)
  /\ List.length (ct_rows ct) <= ROWS_PER_TRIAL.

End GloveLoggerMain.

(** ** Port detection of the two calibration scripts *)

Module Ports.
Import PyStr.

(** What [comports()] gives for a port. *)
Record port_info := mkPort {
  device : string;
  description : string
}.

(** [sub in s] on strings. *)
Fixpoint contains (s sub : string) : bool :=
  String.prefix sub s
  || match s with
     | EmptyString => false
     | String _ s' => contains s' sub
     end.

Section Lower.
(** [str.lower]. *)
Variable lower : string -> string.

(** calibration_capture.py, line 61. *)
Definition capture_matches (port : port_info) : bool :=
  existsb (fun k => contains (lower (device port)) k) ["com"; "ttyusb"; "ttyacm"]
  || contains (lower (description port)) "usb".

Fixpoint capture_scan (ports : list port_info) : option string :=
  match ports with
  | [] => None
  | port :: ports' =>
      if capture_matches port then Some (device port) else capture_scan ports'
  end.

(** [GloveCalibrationCapture._auto_detect_port], lines 55-63. *)
Definition capture_auto_detect_port (ports : list port_info) : option string :=
  match capture_scan ports with
  | Some d => Some d
  | None =>
      match ports with
      | [] => None
      | port :: _ => Some (device port)
      end
  end.

End Lower.

(** python_calibration.py, line 58. *)
Definition calibrator_matches (port : port_info) : bool :=
  contains (description port) "USB" || contains (description port) "Serial".

(** [GloveCalibrator._auto_detect_port], lines 52-60. *)
Fixpoint calibrator_auto_detect_port (ports : list port_info) : option string :=
  match ports with
  | [] => None
  | port :: ports' =>
      if calibrator_matches port then Some (device port)
      else calibrator_auto_detect_port ports'
  end.

(** [str.lower] on ASCII letters, for the examples. *)
Definition lower_char (c : ascii) : ascii :=
  let n := nat_of_ascii c in
  if (65 <=? n) && (n <=? 90) then ascii_of_nat (n + 32) else c.

Fixpoint ascii_lower (s : string) : string :=
  match s with
  | EmptyString => EmptyString
  | String c s' => String (lower_char c) (ascii_lower s')
  end.

End Ports.

(** ** The normalization of [test_calibration] in both scripts *)

Module Normalization.
Import PrimFloat.
Import Calibration.

(** [np.clip] on one number: a NaN is kept, otherwise the value is brought
    up to [lo] and then down to [hi]. *)
Definition clip_max (a b : float) : float :=
  if is_nan a then a else if ltb b a then a else b.
Definition clip_min (a b : float) : float :=
  if is_nan a then a else if ltb a b then a else b.
Definition np_clip (x lo hi : float) : float := clip_min (clip_max x lo) hi.

(** An arithmetic operation on two one-dimensional arrays: equal lengths
    go element by element, a length of one is stretched, anything else is
    the [ValueError] of broadcasting ([None]). *)
Definition broadcast (f : float -> float -> float) (a b : list float)
  : option (list float) :=
  if List.length a =? List.length b then Some (zip_with f a b)
  else match a, b with
       | [x], _ => Some (map (f x) b)
       | _, [y] => Some (map (fun x => f x y) a)
       | _, _ => None
       end.

(** calibration_capture.py lines 262-263 and python_calibration.py lines
    217-218: [(values - baseline) / (maximum - baseline)], clipped to 0..1. *)
Definition normalize (values baseline maximum : list float)
  : option (list float) :=
  match broadcast sub values baseline, broadcast sub maximum baseline with
  | Some num, Some den =>
      match broadcast div num den with
      | Some q => Some (map (fun x => np_clip x zero one) q)
      | None => None
      end
  | _, _ => None
  end.

(** calibration_capture.py lines 249-268: what one line read by
    [test_calibration] prints, the raw values and the normalized ones;
    nothing for a comment, an empty line, and when [float] or the
    arithmetic raises [ValueError]. *)
Definition capture_test_line (pyfloat : string -> option float)
    (baseline maximum : list float) (line : string)
  : option (list float * list float) :=
  match sample_of_line pyfloat line with
  | Some flex_values =>
      match normalize flex_values baseline maximum with
      | Some normalized => Some (flex_values, normalized)
      | None => None
      end
  | None => None
  end.


End Normalization.

(** ** The order of binary64 numbers *)

Module FloatRank.
Import SpecFloat.




End FloatRank.

(** ** What the maximum and the minimum of a channel are *)

Module Extremes.
Import PrimFloat.



End Extremes.

(** * Properties *)

(** ** The string primitives *)

Module PyStrFacts.
Import PyStr.

Lemma split_not_nil (s : string) (c : ascii) : split s c <> [].
Proof.
  destruct s as [|a s]; simpl; [discriminate|].
  destruct (Ascii.eqb a c); [discriminate|].
  destruct (split s c); discriminate.
Qed.

Lemma split_length (s : string) (c : ascii) :
  List.length (split s c) = count s c + 1.
Proof.
  induction s as [|a s IH]; simpl; [reflexivity|].
  destruct (Ascii.eqb a c); simpl.
  - now rewrite IH.
  - destruct (split s c) as [|p ps] eqn:E.
    + now destruct (split_not_nil s c).
    + simpl in *. exact IH.
Qed.

Lemma join_split (s : string) (c : ascii) : join c (split s c) = s.
Proof.
  induction s as [|a s IH]; simpl; [reflexivity|].
  destruct (Ascii.eqb a c) eqn:Ea.
  - apply Ascii.eqb_eq in Ea; subst a.
    destruct (split s c) as [|p ps] eqn:E.
    + now destruct (split_not_nil s c).
    + change (join c (EmptyString :: p :: ps))
        with (String c (join c (p :: ps))).
      now rewrite IH.
  - destruct (split s c) as [|p ps] eqn:E.
    + now destruct (split_not_nil s c).
    + destruct ps as [|q qs]; simpl in *; now rewrite <- IH.
Qed.

Lemma split_inj (s1 s2 : string) (c : ascii) :
  split s1 c = split s2 c -> s1 = s2.
Proof.
  intros H. rewrite <- (join_split s1 c), <- (join_split s2 c). now rewrite H.
Qed.

Lemma count_pos_not_empty (s : string) (c : ascii) :
  0 < count s c -> s <> EmptyString.
Proof. destruct s; simpl; [lia|discriminate]. Qed.

Lemma append_assoc (s1 s2 s3 : string) :
  ((s1 ++ s2) ++ s3 = s1 ++ (s2 ++ s3))%string.
Proof. induction s1 as [|a s1 IH]; simpl; [reflexivity|now rewrite IH]. Qed.

Lemma append_nil_r (s : string) : (s ++ EmptyString)%string = s.
Proof. induction s as [|a s IH]; simpl; [reflexivity|now rewrite IH]. Qed.

End PyStrFacts.

(** ** The trial segmenter of [serial_reader] *)

Module Segmenter.
Import PyStr PyStrFacts GloveLogger.

(** *** Classification against the tests of the loop body *)

Lemma classify_data_inv (line : string) :
  classify line = Data ->
  line <> EmptyString /\ startswith line "t_s," = false
  /\ startswith line "#" = false /\ count line comma = 12.
Proof.
  unfold classify.
  destruct (String.eqb_spec line "") as [->|Hne]; [discriminate|].
  destruct (startswith line "t_s,"); [discriminate|].
  destruct (startswith line "#"); [discriminate|].
  destruct (Nat.eqb_spec (count line comma) 12); [|discriminate].
  intros _. repeat split; assumption.
Qed.

Lemma process_line_data (st : reader_state) (line : string) :
  classify line = Data ->
  process_line st line =
    (fst (segment st (split line comma)),
     Echo line :: snd (segment st (split line comma))).
Proof.
  intros H. destruct (classify_data_inv line H) as (Hne & Hh & Hc & Hn).
  unfold process_line, is_data_row.
  destruct (String.eqb_spec line "") as [->|_]; [now destruct Hne|].
  rewrite Hh, Hc, Hn. simpl.
  now destruct (segment st (split line comma)).
Qed.

Lemma process_line_not_data (st : reader_state) (line : string) :
  classify line <> Data ->
  process_line st line = (st, []) \/ process_line st line = (st, [Echo line]).
Proof.
  unfold classify, process_line, is_data_row.
  destruct (String.eqb line ""); [now left|].
  destruct (startswith line "t_s,"); [now left|].
  destruct (startswith line "#"); simpl.
  - rewrite andb_false_r. now right.
  - destruct (count line comma =? 12); simpl; [congruence|now right].
Qed.

Lemma data_row_width (line : string) :
  classify line = Data -> List.length (split line comma) = 13.
Proof.
  intros H. destruct (classify_data_inv line H) as (_ & _ & _ & Hn).
  rewrite split_length, Hn. reflexivity.
Qed.

Lemma is_data_true (line : string) : is_data line = true <-> classify line = Data.
Proof. unfold is_data. destruct (classify line); split; congruence. Qed.

(** *** The three ways through lines 53-73 *)

Lemma segment_append (st : reader_state) (parts : row) (t : string) :
  trial_id_active st = None \/ trial_id_active st = Some t ->
  last_part parts = t ->
  List.length (current_rows st) + 1 <> ROWS_PER_TRIAL ->
  segment st parts =
    ({| current_rows := current_rows st ++ [parts]; trial_id_active := Some t |}, []).
Proof.
  intros Ha Ht Hlen. unfold segment. rewrite Ht.
  assert (E : match trial_id_active st with None => t | Some a => a end = t)
    by (destruct Ha as [-> | ->]; reflexivity).
  rewrite E, String.eqb_refl. rewrite length_app. simpl List.length.
  destruct (Nat.eqb_spec (List.length (current_rows st) + 1) ROWS_PER_TRIAL);
    [contradiction|reflexivity].
Qed.

Lemma segment_quota (st : reader_state) (parts : row) (t : string) :
  trial_id_active st = None \/ trial_id_active st = Some t ->
  last_part parts = t ->
  List.length (current_rows st) + 1 = ROWS_PER_TRIAL ->
  segment st parts =
    ({| current_rows := []; trial_id_active := Some t |},
     map WriteRow (current_rows st ++ [parts]) ++ [Saved t 75]).
Proof.
  intros Ha Ht Hlen. unfold segment. rewrite Ht.
  assert (E : match trial_id_active st with None => t | Some a => a end = t)
    by (destruct Ha as [-> | ->]; reflexivity).
  rewrite E, String.eqb_refl. rewrite length_app. simpl List.length.
  rewrite Hlen, Nat.eqb_refl. reflexivity.
Qed.

Lemma segment_boundary (st : reader_state) (parts : row) (old : string) :
  trial_id_active st = Some old ->
  last_part parts <> old ->
  segment st parts =
    ({| current_rows := [parts]; trial_id_active := Some (last_part parts) |},
     map WriteRow (current_rows st) ++ [Saved old (List.length (current_rows st))]).
Proof.
  intros Ha Hne. unfold segment. rewrite Ha.
  destruct (String.eqb_spec (last_part parts) old) as [E|_]; [contradiction|].
  reflexivity.
Qed.

(** *** The loop *)

Lemma run_app (st : reader_state) (l1 l2 : list string) :
  run st (l1 ++ l2) =
    (fst (run (fst (run st l1)) l2),
     snd (run st l1) ++ snd (run (fst (run st l1)) l2)).
Proof.
  revert st. induction l1 as [|l l1 IH]; intros st; simpl.
  - now destruct (run st l2).
  - destruct (process_line st l) as [st1 o1].
    rewrite IH. destruct (run st1 l1) as [st2 o2]; simpl.
    now rewrite app_assoc.
Qed.

Lemma run_cons (st : reader_state) (l : string) (ls : list string) :
  run st (l :: ls) =
    (fst (run (fst (process_line st l)) ls),
     snd (process_line st l) ++ snd (run (fst (process_line st l)) ls)).
Proof.
  simpl. destruct (process_line st l) as [st1 o1]; simpl.
  now destruct (run st1 ls).
Qed.

Lemma written_app (o1 o2 : list effect) :
  written (o1 ++ o2) = written o1 ++ written o2.
Proof.
  induction o1 as [|e o1 IH]; simpl; [reflexivity|].
  destruct e; simpl; now rewrite IH.
Qed.

Lemma written_rows (rs : list row) : written (map WriteRow rs) = rs.
Proof. induction rs; simpl; congruence. Qed.

Lemma acks_app (o1 o2 : list effect) : acks (o1 ++ o2) = acks o1 ++ acks o2.
Proof.
  induction o1 as [|e o1 IH]; simpl; [reflexivity|].
  destruct e; simpl; now rewrite IH.
Qed.

Lemma acks_rows (rs : list row) : acks (map WriteRow rs) = [].
Proof. induction rs; simpl; congruence. Qed.

Lemma acks_echo (ls : list string) : acks (map Echo ls) = [].
Proof. induction ls; simpl; congruence. Qed.

Lemma written_echo (ls : list string) : written (map Echo ls) = [].
Proof. induction ls; simpl; congruence. Qed.

(** *** Invariants of the loop *)

Lemma segment_buffer_lt (st : reader_state) (parts : row) :
  List.length (current_rows st) < ROWS_PER_TRIAL ->
  List.length (current_rows (fst (segment st parts))) < ROWS_PER_TRIAL.
Proof.
  intros H. unfold segment.
  destruct (String.eqb _ _); cbv zeta beta iota.
  - destruct (Nat.eqb_spec (List.length (current_rows st ++ [parts])) ROWS_PER_TRIAL)
      as [E|E]; simpl; [unfold ROWS_PER_TRIAL; lia|].
    rewrite length_app in *. simpl in *. lia.
  - simpl. unfold ROWS_PER_TRIAL. lia.
Qed.

Lemma process_line_buffer_lt (st : reader_state) (line : string) :
  List.length (current_rows st) < ROWS_PER_TRIAL ->
  List.length (current_rows (fst (process_line st line))) < ROWS_PER_TRIAL.
Proof.
  intros H. unfold process_line.
  destruct (String.eqb line ""); [exact H|].
  destruct (startswith line "t_s,"); [exact H|].
  destruct (is_data_row line); [|exact H].
  pose proof (segment_buffer_lt st (split line comma) H) as Hs.
  now destruct (segment st (split line comma)).
Qed.

Lemma run_buffer_lt (lines : list string) (st : reader_state) :
  List.length (current_rows st) < ROWS_PER_TRIAL ->
  List.length (current_rows (fst (run st lines))) < ROWS_PER_TRIAL.
Proof.
  revert st. induction lines as [|l ls IH]; intros st H; [exact H|].
  rewrite run_cons. simpl fst. apply IH. now apply process_line_buffer_lt.
Qed.

Lemma initial_buffer_lt : List.length (current_rows initial_state) < ROWS_PER_TRIAL.
Proof. unfold ROWS_PER_TRIAL. simpl. lia. Qed.

(** Every row that reached the segmenter is either written or still buffered,
    and the order of arrival is kept. *)
Lemma segment_conserves (st : reader_state) (parts : row) :
  written (snd (segment st parts)) ++ current_rows (fst (segment st parts))
  = current_rows st ++ [parts].
Proof.
  unfold segment.
  destruct (String.eqb _ _); cbv zeta beta iota.
  - destruct (List.length (current_rows st ++ [parts]) =? ROWS_PER_TRIAL); simpl.
    + now rewrite written_app, written_rows, app_nil_r, app_nil_r.
    + reflexivity.
  - simpl. rewrite !written_app, written_rows. simpl. now rewrite app_nil_r.
Qed.

Lemma process_line_conserves (st : reader_state) (line : string) :
  written (snd (process_line st line)) ++ current_rows (fst (process_line st line))
  = current_rows st ++ data_rows [line].
Proof.
  unfold data_rows. simpl filter.
  destruct (is_data line) eqn:E.
  - apply is_data_true in E. rewrite (process_line_data st line E). simpl.
    apply segment_conserves.
  - assert (Hn : classify line <> Data)
      by (intros C; apply is_data_true in C; congruence).
    destruct (process_line_not_data st line Hn) as [-> | ->];
      simpl; now rewrite app_nil_r.
Qed.

Lemma data_rows_cons (l : string) (ls : list string) :
  data_rows (l :: ls) = data_rows [l] ++ data_rows ls.
Proof. unfold data_rows. simpl. now destruct (is_data l). Qed.

Lemma run_conserves (lines : list string) (st : reader_state) :
  written (snd (run st lines)) ++ current_rows (fst (run st lines))
  = current_rows st ++ data_rows lines.
Proof.
  revert st. induction lines as [|l ls IH]; intros st.
  - simpl. now rewrite app_nil_r.
  - rewrite run_cons, data_rows_cons. simpl fst; simpl snd.
    rewrite written_app, <- app_assoc, IH, app_assoc, process_line_conserves.
    now rewrite app_assoc.
Qed.

(** *** Flushes as the sink sees them *)

Lemma flushes_from_block (rs pending : list row) (t : string) (n : nat)
    (o : list effect) :
  flushes_from pending (map WriteRow rs ++ Saved t n :: o)
  = mkTrial t n (pending ++ rs) :: flushes_from [] o.
Proof.
  revert pending. induction rs as [|r rs IH]; intros pending; simpl.
  - now rewrite app_nil_r.
  - rewrite IH, <- app_assoc. reflexivity.
Qed.

Lemma flushes_block (rs : list row) (t : string) (n : nat) (o : list effect) :
  flushes (map WriteRow rs ++ Saved t n :: o) = mkTrial t n rs :: flushes o.
Proof. unfold flushes. now rewrite flushes_from_block. Qed.

Lemma flush_trace_app (o1 o2 : list effect) :
  flush_trace o1 -> flush_trace o2 -> flush_trace (o1 ++ o2).
Proof.
  intros H1 H2. induction H1 as [|l o _ IH|rs t o _ IH]; simpl.
  - exact H2.
  - now constructor.
  - rewrite <- app_assoc. simpl. now constructor.
Qed.

Lemma flush_trace_written (o : list effect) :
  flush_trace o -> written o = List.concat (map ct_rows (flushes o)).
Proof.
  induction 1 as [|l o _ IH|rs t o _ IH]; simpl.
  - reflexivity.
  - exact IH.
  - rewrite flushes_block, written_app, written_rows. simpl. now rewrite IH.
Qed.

Lemma flush_trace_counts (o : list effect) :
  flush_trace o ->
  Forall (fun ct => ct_count ct = List.length (ct_rows ct)) (flushes o).
Proof.
  induction 1 as [|l o _ IH|rs t o _ IH]; simpl.
  - constructor.
  - exact IH.
  - rewrite flushes_block. now constructor.
Qed.

Lemma segment_flush_trace (st : reader_state) (parts : row) :
  flush_trace (snd (segment st parts)).
Proof.
  unfold segment.
  destruct (String.eqb _ _); cbv zeta beta iota.
  - destruct (Nat.eqb_spec (List.length (current_rows st ++ [parts])) ROWS_PER_TRIAL)
      as [E|E]; simpl; [|constructor].
    change 75 with ROWS_PER_TRIAL. rewrite <- E. repeat constructor.
  - assert (F : flush_trace
                  (map WriteRow (current_rows st)
                     ++ [Saved (match trial_id_active st with
                                | None => last_part parts
                                | Some a => a
                                end) (List.length (current_rows st))]))
      by repeat constructor.
    destruct (Nat.eqb_spec (List.length ([] ++ [parts])) ROWS_PER_TRIAL) as [E|E];
      simpl; [discriminate E|exact F].
Qed.

Lemma process_line_flush_trace (st : reader_state) (line : string) :
  flush_trace (snd (process_line st line)).
Proof.
  destruct (is_data line) eqn:E.
  - apply is_data_true in E. rewrite (process_line_data st line E). simpl.
    constructor. apply segment_flush_trace.
  - assert (Hn : classify line <> Data)
      by (intros C; apply is_data_true in C; congruence).
    destruct (process_line_not_data st line Hn) as [-> | ->]; simpl;
      repeat constructor.
Qed.

Lemma run_flush_trace (lines : list string) (st : reader_state) :
  flush_trace (snd (run st lines)).
Proof.
  revert st. induction lines as [|l ls IH]; intros st; [constructor|].
  rewrite run_cons. simpl snd.
  apply flush_trace_app; [apply process_line_flush_trace|apply IH].
Qed.

Lemma flushes_from_echo (ls : list string) (pending : list row) (o : list effect) :
  flushes_from pending (map Echo ls ++ o) = flushes_from pending o.
Proof. induction ls as [|l ls IH]; simpl; [reflexivity|exact IH]. Qed.

(** *** Rows of one trial id *)

(** While the quota is not reached, rows of the active id are only echoed
    and buffered. *)
Lemma run_accumulate (lines : list string) (st : reader_state) (t : string) :
  trial_id_active st = None \/ trial_id_active st = Some t ->
  Forall (fun l => classify l = Data /\ tid_of l = t) lines ->
  List.length (current_rows st) + List.length lines < ROWS_PER_TRIAL ->
  current_rows (fst (run st lines))
    = current_rows st ++ map (fun l => split l comma) lines
  /\ (trial_id_active (fst (run st lines)) = None
      \/ trial_id_active (fst (run st lines)) = Some t)
  /\ snd (run st lines) = map Echo lines.
Proof.
  revert st. induction lines as [|l ls IH]; intros st Ha HF Hlen.
  - simpl. rewrite app_nil_r. auto.
  - inversion HF as [|? ? [Hc Ht] HF']; subst. simpl List.length in Hlen.
    rewrite run_cons, (process_line_data st l Hc).
    rewrite (segment_append st (split l comma) (tid_of l) Ha eq_refl)
      by (unfold ROWS_PER_TRIAL in *; lia).
    simpl fst; simpl snd.
    destruct (IH {| current_rows := current_rows st ++ [split l comma];
                    trial_id_active := Some (tid_of l) |}) as (Hr & Hi & Ho).
    + now right.
    + exact HF'.
    + simpl. rewrite length_app. simpl. lia.
    + rewrite Hr, Ho. simpl. rewrite <- app_assoc. auto.
Qed.

Lemma run_fill (lines : list string) (st : reader_state) (t : string) :
  trial_id_active st = None \/ trial_id_active st = Some t ->
  Forall (fun l => classify l = Data /\ tid_of l = t) lines ->
  List.length (current_rows st) < ROWS_PER_TRIAL ->
  List.length (current_rows st) + List.length lines = ROWS_PER_TRIAL ->
  run st lines =
    ({| current_rows := []; trial_id_active := Some t |},
     map Echo lines
       ++ map WriteRow (current_rows st ++ map (fun l => split l comma) lines)
       ++ [Saved t 75]).
Proof.
  revert st. induction lines as [|l ls IH]; intros st Ha HF Hlt Hlen.
  - simpl in Hlen. lia.
  - inversion HF as [|? ? [Hc Ht] HF']; subst. simpl List.length in Hlen.
    rewrite run_cons, (process_line_data st l Hc).
    destruct ls as [|l' ls'].
    + rewrite (segment_quota st (split l comma) (tid_of l) Ha eq_refl)
        by (simpl in Hlen; lia).
      simpl. now rewrite app_nil_r.
    + rewrite (segment_append st (split l comma) (tid_of l) Ha eq_refl)
        by (simpl in Hlen; lia).
      cbn [fst snd].
      rewrite (IH {| current_rows := current_rows st ++ [split l comma];
                     trial_id_active := Some (tid_of l) |}).
      * cbn [fst snd current_rows map app].
        rewrite <- (app_assoc (current_rows st)). reflexivity.
      * now right.
      * exact HF'.
      * simpl in *. rewrite length_app. simpl. lia.
      * simpl in *. rewrite length_app. simpl. lia.
Qed.

(** C1. Rows sharing one trial id: at the row that brings the buffer to 75
    rows the reader writes those 75 rows and acknowledges them once, the
    buffer is empty afterwards and the active trial id is the same id. *)
Theorem quota_flush (st : reader_state) (lines : list string) (t : string) :
  trial_id_active st = None \/ trial_id_active st = Some t ->
  Forall (fun l => classify l = Data /\ tid_of l = t) lines ->
  List.length (current_rows st) < ROWS_PER_TRIAL ->
  List.length (current_rows st) + List.length lines = ROWS_PER_TRIAL ->
  let rows := current_rows st ++ map (fun l => split l comma) lines in
  run st lines =
    ({| current_rows := []; trial_id_active := Some t |},
     map Echo lines ++ map WriteRow rows ++ [Saved t 75])
  /\ flushes (snd (run st lines)) = [mkTrial t 75 rows]
  /\ List.length rows = 75.
Proof.
  intros Ha HF Hlt Hlen rows.
  pose proof (run_fill lines st t Ha HF Hlt Hlen) as E. fold rows in E.
  split; [exact E|]. split.
  - rewrite E. simpl snd. unfold flushes.
    rewrite flushes_from_echo.
    change (map WriteRow rows ++ [Saved t 75])
      with (map WriteRow rows ++ Saved t 75 :: []).
    now rewrite flushes_from_block.
  - unfold rows. rewrite length_app, length_map. exact Hlen.
Qed.

Lemma sample_lines_data (t : string) (n : nat) :
  classify (sample_line t) = Data -> tid_of (sample_line t) = t ->
  Forall (fun l => classify l = Data /\ tid_of l = t) (repeat (sample_line t) n).
Proof.
  intros Hc Ht. apply Forall_forall. intros x Hx.
  apply repeat_spec in Hx. subst x. now split.
Defined.

(** Scenario A: 75 rows of trial 1 from the start of the stream. *)
Lemma quota_flush_witness :
  run initial_state (repeat (sample_line "1") 75) =
    ({| current_rows := []; trial_id_active := Some "1" |},
     map Echo (repeat (sample_line "1") 75)
       ++ map WriteRow (map (fun l => split l comma) (repeat (sample_line "1") 75))
       ++ [Saved "1" 75])
  /\ flushes (snd (run initial_state (repeat (sample_line "1") 75)))
     = [mkTrial "1" 75 (map (fun l => split l comma) (repeat (sample_line "1") 75))]
  /\ List.length (map (fun l => split l comma) (repeat (sample_line "1") 75)) = 75.
Proof.
  apply (quota_flush initial_state (repeat (sample_line "1") 75) "1").
  - left. reflexivity.
  - apply sample_lines_data; reflexivity.
  - unfold ROWS_PER_TRIAL. simpl. lia.
  - reflexivity.
Defined.

(** *** A change of trial id *)



Example scenario_B :
  let '(st, out) := serial_reader (repeat (sample_line "1") 40 ++ [sample_line "2"]) in
  acks out = [("1", 40)]
  /\ written out = repeat (split (sample_line "1") comma) 40
  /\ current_rows st = [split (sample_line "2") comma]
  /\ trial_id_active st = Some "2".
Proof. vm_compute. repeat split. Qed.

(** C9. A data row with a new trial id arriving on an empty buffer: the
    reader prints the acknowledgment of the previous id with zero rows,
    writes nothing, and starts the new buffer with that row under the new
    id. *)
Theorem empty_boundary_ack (st : reader_state) (line old : string) :
  current_rows st = [] ->
  trial_id_active st = Some old ->
  classify line = Data ->
  tid_of line <> old ->
  process_line st line =
    ({| current_rows := [split line comma];
        trial_id_active := Some (tid_of line) |},
     [Echo line; Saved old 0])
  /\ written (snd (process_line st line)) = []
  /\ acks (snd (process_line st line)) = [(old, 0)]
  /\ stdout_text (Saved old 0)
       = Some ("[+] Saved trial " ++ old ++ " (0 rows)")%string.
Proof.
  intros Hr Ha Hc Hne.
  assert (E : process_line st line =
    ({| current_rows := [split line comma];
        trial_id_active := Some (tid_of line) |},
     [Echo line; Saved old 0])).
  { rewrite (process_line_data st line Hc).
    rewrite (segment_boundary st (split line comma) old Ha Hne).
    now rewrite Hr. }
  rewrite E. repeat split.
Qed.

(** The first row after the quota flush of trial 1 carries trial id 2. *)
Lemma empty_boundary_ack_witness :
  let st := fst (serial_reader (repeat (sample_line "1") 75)) in
  process_line st (sample_line "2") =
    ({| current_rows := [split (sample_line "2") comma];
        trial_id_active := Some (tid_of (sample_line "2")) |},
     [Echo (sample_line "2"); Saved "1" 0])
  /\ written (snd (process_line st (sample_line "2"))) = []
  /\ acks (snd (process_line st (sample_line "2"))) = [("1", 0)]
  /\ stdout_text (Saved "1" 0) = Some "[+] Saved trial 1 (0 rows)".
Proof.
  apply (empty_boundary_ack
           (fst (serial_reader (repeat (sample_line "1") 75)))
           (sample_line "2") "1").
  - vm_compute. reflexivity.
  - vm_compute. reflexivity.
  - vm_compute. reflexivity.
  - vm_compute. discriminate.
Defined.

(** *** Lines that are not data rows *)

(** C4. An empty line, a comment, a stale header or a line whose number of
    commas is not 12 leaves the segmenter state as it was; nothing is
    written and nothing is acknowledged (the line is at most echoed). *)
Theorem non_data_line_ignored (st : reader_state) (line : string) :
  line = EmptyString
  \/ startswith line "#" = true
  \/ startswith line "t_s," = true
  \/ count line comma <> 12 ->
  classify line <> Data
  /\ fst (process_line st line) = st
  /\ (snd (process_line st line) = [] \/ snd (process_line st line) = [Echo line])
  /\ written (snd (process_line st line)) = []
  /\ acks (snd (process_line st line)) = [].
Proof.
  intros H.
  assert (Hn : classify line <> Data).
  { intros C. destruct (classify_data_inv line C) as (Hne & Hh & Hc & Hcnt).
    destruct H as [H | [H | [H | H]]]; congruence. }
  split; [exact Hn|].
  destruct (process_line_not_data st line Hn) as [-> | ->]; simpl; auto.
Qed.

(** Scenario C: the header arrives after 10 buffered rows. *)
Lemma non_data_line_ignored_witness :
  let st := fst (serial_reader (repeat (sample_line "1") 10)) in
  List.length (current_rows st) = 10
  /\ classify HEADER <> Data
  /\ fst (process_line st HEADER) = st
  /\ (snd (process_line st HEADER) = [] \/ snd (process_line st HEADER) = [Echo HEADER])
  /\ written (snd (process_line st HEADER)) = []
  /\ acks (snd (process_line st HEADER)) = [].
Proof.
  split; [vm_compute; reflexivity|].
  apply (non_data_line_ignored
           (fst (serial_reader (repeat (sample_line "1") 10))) HEADER).
  right. right. left. vm_compute. reflexivity.
Defined.

(** *** The quota bounds the buffer *)

(** C10. Whatever was read before, after one more line the buffer holds
    fewer than 75 rows. *)
Theorem buffer_below_quota (pre : list string) (line : string) :
  List.length (current_rows (fst (process_line (fst (serial_reader pre)) line)))
    < ROWS_PER_TRIAL
  /\ List.length (current_rows (fst (serial_reader (pre ++ [line])))) < ROWS_PER_TRIAL.
Proof.
  split.
  - apply process_line_buffer_lt, run_buffer_lt, initial_buffer_lt.
  - apply run_buffer_lt, initial_buffer_lt.
Qed.

End Segmenter.

(** ** What the csv writer writes is read back as it was *)

Module CsvFacts.
Import PyStr PyStrFacts Csv.

Lemma feed_app (s1 s2 : string) (p : parser) :
  feed p (s1 ++ s2)%string = feed (feed p s1) s2.
Proof.
  revert p. induction s1 as [|c s1 IH]; intros p; simpl; [reflexivity|apply IH].
Qed.

Lemma special_false (c : ascii) :
  special c = false ->
  Ascii.eqb c comma = false /\ Ascii.eqb c dquote = false
  /\ Ascii.eqb c cr = false /\ Ascii.eqb c lf = false.
Proof.
  unfold special. intros H.
  destruct (Ascii.eqb c comma), (Ascii.eqb c dquote), (Ascii.eqb c cr),
    (Ascii.eqb c lf); try discriminate H; auto.
Qed.

Lemma feed_plain_in_field (f cur : string) (fs : list string)
    (recs : list (list string)) :
  needs_quotes f = false ->
  feed (mkParser IN_FIELD cur fs recs) f
  = mkParser IN_FIELD (cur ++ f)%string fs recs.
Proof.
  revert cur. induction f as [|c f IH]; intros cur H; simpl.
  - now rewrite append_nil_r.
  - simpl in H. apply orb_false_elim in H. destruct H as [Hc Hf].
    destruct (special_false c Hc) as (E1 & E2 & E3 & E4).
    unfold step. cbn [state]. rewrite E1, E3, E4.
    unfold add_char. cbn [field fields records].
    rewrite (IH _ Hf), append_assoc. reflexivity.
Qed.

Lemma feed_plain_start (f : string) (fs : list string)
    (recs : list (list string)) :
  needs_quotes f = false -> f <> EmptyString ->
  feed (mkParser START_FIELD EmptyString fs recs) f
  = mkParser IN_FIELD f fs recs.
Proof.
  destruct f as [|c f]; intros H Hne; [now destruct Hne|]. simpl.
  simpl in H. apply orb_false_elim in H. destruct H as [Hc Hf].
  destruct (special_false c Hc) as (E1 & E2 & E3 & E4).
  unfold step, start_field. cbn [state]. rewrite E1, E2, E3, E4.
  unfold add_char. cbn [field fields records]. simpl append.
  now rewrite (feed_plain_in_field f _ fs recs Hf).
Qed.

Lemma feed_escaped (f cur : string) (fs : list string)
    (recs : list (list string)) :
  feed (mkParser IN_QUOTED_FIELD cur fs recs) (double_quotes f)
  = mkParser IN_QUOTED_FIELD (cur ++ f)%string fs recs.
Proof.
  revert cur. induction f as [|c f IH]; intros cur; simpl.
  - now rewrite append_nil_r.
  - destruct (Ascii.eqb c dquote) eqn:E; simpl.
    + apply Ascii.eqb_eq in E. subst c.
      change (step (step (mkParser IN_QUOTED_FIELD cur fs recs) dquote) dquote)
        with (mkParser IN_QUOTED_FIELD (cur ++ String dquote EmptyString)%string
                fs recs).
      rewrite IH, append_assoc. reflexivity.
    + unfold step. cbn [state]. rewrite E.
      unfold add_char. cbn [field fields records].
      rewrite IH, append_assoc. reflexivity.
Qed.

(** The parser just before the separator that follows a written field. *)
Lemma feed_field (f : string) (fs : list string) (recs : list (list string)) :
  exists st,
    (st = IN_FIELD \/ st = QUOTE_IN_QUOTED_FIELD
     \/ (st = START_FIELD /\ f = EmptyString))
    /\ feed (mkParser START_FIELD EmptyString fs recs) (write_field f)
       = mkParser st f fs recs.
Proof.
  unfold write_field. destruct (needs_quotes f) eqn:Hq.
  - exists QUOTE_IN_QUOTED_FIELD. split; [auto|].
    cbn [feed].
    change (step (mkParser START_FIELD EmptyString fs recs) dquote)
      with (mkParser IN_QUOTED_FIELD EmptyString fs recs).
    rewrite feed_app, feed_escaped. reflexivity.
  - destruct f as [|c f].
    + exists START_FIELD. auto.
    + exists IN_FIELD. split; [auto|].
      apply feed_plain_start; [exact Hq|discriminate].
Qed.

Lemma feed_field_comma (f rest : string) (fs : list string)
    (recs : list (list string)) :
  feed (mkParser START_FIELD EmptyString fs recs)
       (write_field f ++ String comma rest)%string
  = feed (mkParser START_FIELD EmptyString (fs ++ [f]) recs) rest.
Proof.
  rewrite feed_app.
  destruct (feed_field f fs recs) as (st & Hst & ->). simpl. f_equal.
  destruct Hst as [-> | [-> | [-> ->]]]; reflexivity.
Qed.

Lemma feed_field_cr (f rest : string) (fs : list string)
    (recs : list (list string)) :
  feed (mkParser START_FIELD EmptyString fs recs)
       (write_field f ++ String cr rest)%string
  = feed (mkParser EAT_CRNL EmptyString [] (recs ++ [fs ++ [f]])) rest.
Proof.
  rewrite feed_app.
  destruct (feed_field f fs recs) as (st & Hst & ->). simpl. f_equal.
  destruct Hst as [-> | [-> | [-> ->]]]; reflexivity.
Qed.

Lemma feed_rest (rest : list string) (g : string) (fs : list string)
    (recs : list (list string)) :
  feed (mkParser START_FIELD EmptyString fs recs)
       (write_field g ++ rest_text rest)%string
  = mkParser START_RECORD EmptyString [] (recs ++ [fs ++ g :: rest]).
Proof.
  revert g fs. induction rest as [|h rest IH]; intros g fs.
  - simpl rest_text. rewrite feed_field_cr. reflexivity.
  - simpl rest_text. rewrite feed_field_comma, IH, <- app_assoc. reflexivity.
Qed.

Lemma join_rest_text (rest : list string) (a : string) :
  (join comma (a :: map write_field rest) ++ String cr (String lf EmptyString)
   = a ++ rest_text rest)%string.
Proof.
  revert a. induction rest as [|h rest IH]; intros a.
  - reflexivity.
  - change (join comma (a :: map write_field (h :: rest)))
      with (a ++ String comma (join comma (write_field h :: map write_field rest)))%string.
    rewrite append_assoc. f_equal. cbn [append rest_text]. f_equal. apply IH.
Qed.

Lemma writerow_cons (f : string) (rest : list string) :
  f :: rest <> [EmptyString] ->
  writerow (f :: rest) = (write_field f ++ rest_text rest)%string.
Proof.
  intros Hne. unfold writerow.
  destruct f as [|c f].
  - destruct rest as [|g rest]; [now destruct Hne|].
    apply (join_rest_text (g :: rest)).
  - apply (join_rest_text rest).
Qed.

(** A written row never starts with CR or LF, so its first character is
    handled as the start of a field. *)
Lemma feed_first_field (f : string) (rest : list string)
    (recs : list (list string)) :
  f :: rest <> [EmptyString] ->
  feed (mkParser START_RECORD EmptyString [] recs)
       (write_field f ++ rest_text rest)%string
  = feed (mkParser START_FIELD EmptyString [] recs)
         (write_field f ++ rest_text rest)%string.
Proof.
  intros Hne.
  assert (H : exists c t,
             (write_field f ++ rest_text rest)%string = String c t
             /\ Ascii.eqb c lf = false /\ Ascii.eqb c cr = false).
  { unfold write_field. destruct (needs_quotes f) eqn:Hq.
    - eexists _, _. simpl. split; [reflexivity|]. split; reflexivity.
    - destruct f as [|c f].
      + destruct rest as [|g rest]; [now destruct Hne|].
        eexists _, _. simpl. split; [reflexivity|]. split; reflexivity.
      + simpl in Hq. apply orb_false_elim in Hq. destruct Hq as [Hc _].
        destruct (special_false c Hc) as (_ & _ & E3 & E4).
        eexists _, _. simpl. split; [reflexivity|]. now split. }
  destruct H as (c & t & -> & E1 & E2). simpl. f_equal.
  unfold step, start_record. cbn [state]. now rewrite E1, E2.
Qed.

Lemma feed_writerow (r : list string) (recs : list (list string)) :
  feed (mkParser START_RECORD EmptyString [] recs) (writerow r)
  = mkParser START_RECORD EmptyString [] (recs ++ [r]).
Proof.
  destruct r as [|f rest]; [reflexivity|].
  destruct (list_eq_dec string_dec (f :: rest) [EmptyString]) as [E|Hne].
  - rewrite E. reflexivity.
  - rewrite (writerow_cons f rest Hne), (feed_first_field f rest recs Hne).
    apply (feed_rest rest f []).
Qed.

Lemma feed_file_text (rows recs : list (list string)) :
  feed (mkParser START_RECORD EmptyString [] recs) (file_text rows)
  = mkParser START_RECORD EmptyString [] (recs ++ rows).
Proof.
  revert recs. induction rows as [|r rows IH]; intros recs; simpl.
  - now rewrite app_nil_r.
  - rewrite feed_app, feed_writerow, IH, <- app_assoc. reflexivity.
Qed.

Lemma read_file_text (rows : list (list string)) : read (file_text rows) = rows.
Proof. unfold read. now rewrite feed_file_text. Qed.

End CsvFacts.

(** ** The trial sink: what reaches the file *)

Module Sink.
Import PyStr PyStrFacts GloveLogger Segmenter.

Lemma serial_reader_conserves (lines : list string) :
  written (snd (serial_reader lines)) ++ current_rows (fst (serial_reader lines))
  = data_rows lines.
Proof. unfold serial_reader. now rewrite run_conserves. Qed.

Lemma data_rows_not_header (lines : list string) :
  ~ In (split HEADER comma) (data_rows lines).
Proof.
  unfold data_rows. intros H. apply in_map_iff in H.
  destruct H as (l & E & Hl). apply filter_In in Hl. destruct Hl as [_ Hd].
  apply split_inj in E. subst l. discriminate Hd.
Qed.

Lemma written_not_header (lines : list string) :
  ~ In (split HEADER comma) (written (snd (serial_reader lines))).
Proof.
  intros H. apply (data_rows_not_header lines).
  rewrite <- serial_reader_conserves. apply in_or_app. now left.
Qed.

Lemma store_app_quiet (pre tail : list string) :
  written (snd (run (fst (serial_reader pre)) tail)) = [] ->
  store (pre ++ tail) = store pre.
Proof.
  intros H. unfold store, serial_reader in *. rewrite run_app. cbn [snd].
  now rewrite written_app, H, app_nil_r.
Qed.

(** C3. Rows of the active trial id that leave fewer than 75 rows in the
    buffer when the reader stops are never written: the reader only echoes
    them, the store is what it was before they arrived, and they are still
    in the buffer when the loop ends.  In every run the store followed by
    the final buffer is the sequence of the data rows received. *)
Theorem unflushed_rows_not_persisted (pre tail : list string) (t : string) :
  trial_id_active (fst (serial_reader pre)) = None
    \/ trial_id_active (fst (serial_reader pre)) = Some t ->
  Forall (fun l => classify l = Data /\ tid_of l = t) tail ->
  List.length (current_rows (fst (serial_reader pre))) + List.length tail
    < ROWS_PER_TRIAL ->
  snd (run (fst (serial_reader pre)) tail) = map Echo tail
  /\ flushes (snd (run (fst (serial_reader pre)) tail)) = []
  /\ store (pre ++ tail) = store pre
  /\ current_rows (fst (serial_reader (pre ++ tail)))
       = current_rows (fst (serial_reader pre))
           ++ map (fun l => split l comma) tail
  /\ tl (store (pre ++ tail)) ++ current_rows (fst (serial_reader (pre ++ tail)))
       = data_rows (pre ++ tail).
Proof.
  intros Ha HF Hlen.
  destruct (run_accumulate tail (fst (serial_reader pre)) t Ha HF Hlen)
    as (Hr & _ & Ho).
  split; [exact Ho|]. split.
  { rewrite Ho. unfold flushes.
    rewrite <- (app_nil_r (map Echo tail)), flushes_from_echo. reflexivity. }
  split.
  { apply store_app_quiet. rewrite Ho. apply written_echo. }
  split.
  { unfold serial_reader. rewrite run_app. cbn [fst]. exact Hr. }
  apply serial_reader_conserves.
Qed.

(** Scenario D: the stream ends after 30 rows of trial 1. *)
Lemma unflushed_rows_not_persisted_witness :
  snd (run (fst (serial_reader [])) (repeat (sample_line "1") 30))
    = map Echo (repeat (sample_line "1") 30)
  /\ flushes (snd (run (fst (serial_reader [])) (repeat (sample_line "1") 30))) = []
  /\ store ([] ++ repeat (sample_line "1") 30) = store []
  /\ current_rows (fst (serial_reader ([] ++ repeat (sample_line "1") 30)))
       = current_rows (fst (serial_reader []))
           ++ map (fun l => split l comma) (repeat (sample_line "1") 30)
  /\ tl (store ([] ++ repeat (sample_line "1") 30))
       ++ current_rows (fst (serial_reader ([] ++ repeat (sample_line "1") 30)))
       = data_rows ([] ++ repeat (sample_line "1") 30).
Proof.
  apply (unflushed_rows_not_persisted [] (repeat (sample_line "1") 30) "1").
  - left. reflexivity.
  - apply sample_lines_data; reflexivity.
  - unfold ROWS_PER_TRIAL. simpl. lia.
Defined.

Example scenario_D :
  store (repeat (sample_line "1") 30) = [split HEADER comma]
  /\ List.length (current_rows (fst (serial_reader (repeat (sample_line "1") 30)))) = 30.
Proof. vm_compute. split; reflexivity. Qed.

(** C5. The store is the header row followed by the rows of the flushes in
    the order of arrival; the header row is in it exactly once however many
    flushes there were; each flush reports the number of rows it wrote; and
    the text of the file, read back as csv, gives the same rows with the
    same fields in the same order. *)
Theorem store_layout_round_trip (lines : list string) :
  store lines
    = split HEADER comma
        :: List.concat (map ct_rows (flushes (snd (serial_reader lines))))
  /\ count_occ row_eq_dec (store lines) (split HEADER comma) = 1
  /\ Forall (fun ct => ct_count ct = List.length (ct_rows ct))
        (flushes (snd (serial_reader lines)))
  /\ List.concat (map ct_rows (flushes (snd (serial_reader lines))))
       ++ current_rows (fst (serial_reader lines))
     = data_rows lines
  /\ Csv.read (csv_file lines) = store lines
  /\ Forall (fun ct => Csv.read (Csv.file_text (ct_rows ct)) = ct_rows ct)
        (flushes (snd (serial_reader lines))).
Proof.
  pose proof (run_flush_trace lines initial_state) as FT.
  fold (serial_reader lines) in FT.
  pose proof (flush_trace_written _ FT) as W.
  split; [unfold store; now rewrite W|].
  split.
  { unfold store. simpl.
    destruct (row_eq_dec (split HEADER comma) (split HEADER comma)) as [_|N];
      [|now destruct N].
    f_equal. apply count_occ_not_In. apply written_not_header. }
  split; [now apply flush_trace_counts|].
  split; [rewrite <- W; apply serial_reader_conserves|].
  split; [apply CsvFacts.read_file_text|].
  apply Forall_forall. intros ct _. apply CsvFacts.read_file_text.
Qed.

End Sink.

(** ** Calibration capture *)

Module CalibrationFacts.
Import PyStr PyStrFacts Calibration.
Import PrimFloat.

(** *** Slices and samples *)

Lemma slice_length {A : Type} (i j : nat) (l : list A) :
  List.length (slice i j l) = Nat.min (j - i) (List.length l - i).
Proof. unfold slice. now rewrite length_firstn, length_skipn. Qed.

(** The width of an accepted sample of [calibration_capture.py]: five
    values when the line has at least six, four when it has exactly five. *)
Lemma sample_of_line_width (pyfloat : string -> option float)
    (line : string) (s : list float) :
  sample_of_line pyfloat line = Some s ->
  exists values,
    parse_values pyfloat (split line ","%char) = Some values
    /\ 5 <= List.length values
    /\ s = slice 1 6 values
    /\ List.length s = Nat.min 5 (List.length values - 1).
Proof.
  unfold sample_of_line.
  destruct (startswith line "#" || String.eqb line ""); [discriminate|].
  destruct (parse_values pyfloat (split line ","%char)) as [values|];
    [|discriminate].
  destruct (Nat.leb_spec 5 (List.length values)) as [H|H]; [|discriminate].
  intros E. injection E as <-. exists values.
  repeat split; try assumption. now rewrite slice_length.
Qed.

Lemma read_sensor_data_width (pyfloat : string -> option float)
    (r : read) (s : list float) :
  read_sensor_data pyfloat r = Some s -> List.length s = 5.
Proof.
  destruct r as [line|]; unfold read_sensor_data; [|discriminate].
  destruct (String.eqb line ""); [discriminate|].
  destruct (parse_values pyfloat (split line ","%char)) as [values|];
    [|discriminate].
  destruct (Nat.leb_spec 5 (List.length values)) as [H|H]; [|discriminate].
  intros E. injection E as <-. rewrite slice_length. lia.
Qed.

(** C6. On the line [1,2,3,4,5] the collecting loop of
    [calibration_capture.py] accepts the line and appends a sample of four
    values, not five: the test admits five values and the slice starts at
    the second. *)
Theorem five_value_line_sample_has_four_values :
  collect_loop float_of_digits [] [ReadLine "1,2,3,4,5"]
    = [[2; 3; 4; 5]%float]
  /\ Forall (fun s => List.length s = 4)
       (collect_loop float_of_digits [] [ReadLine "1,2,3,4,5"])
  /\ ~ Forall (fun s => List.length s = 5)
       (collect_loop float_of_digits [] [ReadLine "1,2,3,4,5"]).
Proof.
  assert (E : collect_loop float_of_digits [] [ReadLine "1,2,3,4,5"]
              = [[2; 3; 4; 5]%float]) by (vm_compute; reflexivity).
  rewrite E. split; [reflexivity|]. split.
  - repeat constructor.
  - intros H. inversion H as [|? ? H5 _]. discriminate H5.
Qed.

(** *** The reduction along axis 0, channel by channel *)

Lemma zip_with_length {A : Type} (f : A -> A -> A) (l1 l2 : list A) :
  List.length l1 = List.length l2 ->
  List.length (zip_with f l1 l2) = List.length l1.
Proof.
  revert l2. induction l1 as [|a l1 IH]; intros [|b l2] H; simpl in *;
    try discriminate; [reflexivity|].
  f_equal. apply IH. now injection H.
Qed.

Lemma zip_with_nth {A : Type} (f : A -> A -> A) (d : A) (l1 l2 : list A)
    (j : nat) :
  j < List.length l1 -> j < List.length l2 ->
  nth j (zip_with f l1 l2) d = f (nth j l1 d) (nth j l2 d).
Proof.
  revert l2 j. induction l1 as [|a l1 IH]; intros [|b l2] j H1 H2;
    simpl in *; try lia.
  destruct j as [|j]; [reflexivity|]. apply IH; lia.
Qed.

Lemma list_by_index {A : Type} (d : A) (l : list A) :
  l = map (fun j => nth j l d) (seq 0 (List.length l)).
Proof.
  apply (nth_ext _ _ d d).
  - now rewrite length_map, length_seq.
  - intros n Hn.
    transitivity (nth n (map (fun j => nth j l d) (seq 0 (List.length l)))
                    ((fun j => nth j l d) 0)).
    + symmetry. etransitivity;
        [apply (map_nth (fun j => nth j l d) (seq 0 (List.length l)) 0 n)|].
      now rewrite seq_nth.
    + apply nth_indep. now rewrite length_map, length_seq.
Qed.

Lemma reduce_rows_by_channel (f : float -> float -> float)
    (rest : list (list float)) (r0 : list float) :
  Forall (fun r => List.length r = List.length r0) rest ->
  reduce_rows f r0 rest
  = map (fun j => fold_left f (channel j rest) (nth j r0 zero))
      (seq 0 (List.length r0)).
Proof.
  revert r0. induction rest as [|r1 rest IH]; intros r0 H.
  - simpl. apply list_by_index.
  - inversion H as [|? ? H1 Hrest]; subst.
    unfold reduce_rows in *. simpl fold_left.
    assert (L : List.length (zip_with f r0 r1) = List.length r0)
      by (apply zip_with_length; congruence).
    rewrite IH.
    + rewrite L. apply map_ext_in. intros j Hj. apply in_seq in Hj.
      simpl. rewrite zip_with_nth by lia. reflexivity.
    + rewrite L. exact Hrest.
Qed.

Lemma rectangular_width (k : nat) (r0 : list float) (rest : list (list float)) :
  Forall (fun r => List.length r = k) (r0 :: rest) ->
  rectangular (r0 :: rest) = true
  /\ Forall (fun r => List.length r = List.length r0) rest.
Proof.
  intros H. inversion H as [|? ? H0 Hrest]; subst. split.
  - simpl. apply forallb_forall. intros r Hr. apply Nat.eqb_eq.
    rewrite Forall_forall in Hrest. now apply Hrest.
  - exact Hrest.
Qed.

Lemma channel_cons (j : nat) (r0 : list float) (rest : list (list float)) :
  channel j (r0 :: rest) = nth j r0 zero :: channel j rest.
Proof. reflexivity. Qed.

Lemma channel_length (j : nat) (data : list (list float)) :
  List.length (channel j data) = List.length data.
Proof. unfold channel. apply length_map. Qed.

Lemma np_maximum_choice (a b : float) : np_maximum a b = a \/ np_maximum a b = b.
Proof. unfold np_maximum. destruct (is_nan a), (ltb b a); auto. Qed.

Lemma np_minimum_choice (a b : float) : np_minimum a b = a \/ np_minimum a b = b.
Proof. unfold np_minimum. destruct (is_nan a), (ltb a b); auto. Qed.

Lemma fold_choice (f : float -> float -> float) (xs : list float) (x : float) :
  (forall a b, f a b = a \/ f a b = b) ->
  In (fold_left f xs x) (x :: xs).
Proof.
  intros Hf. revert x. induction xs as [|y xs IH]; intros x; simpl; [auto|].
  destruct (IH (f x y)) as [E|I]; [|auto].
  rewrite <- E. destruct (Hf x y) as [-> | ->]; auto.
Qed.

(** The maximum and the minimum of a channel are values of the channel. *)
Lemma maximum_in (xs : list float) : xs <> [] -> In (maximum xs) xs.
Proof.
  destruct xs as [|x xs]; [now intros []|]. intros _.
  apply fold_choice, np_maximum_choice.
Qed.

Lemma minimum_in (xs : list float) : xs <> [] -> In (minimum xs) xs.
Proof.
  destruct xs as [|x xs]; [now intros []|]. intros _.
  apply fold_choice, np_minimum_choice.
Qed.

(** C7. The lines [0,1,2,3,4,5] and [1,2,3,4,5] read in one phase are both
    accepted: the collected sequence is not empty, its samples have five
    and four values, and the reduction raises on it instead of returning a
    baseline, a maximum and a minimum for each channel. *)
Theorem mixed_width_samples_are_not_reduced :
  collect_loop float_of_digits []
    [ReadLine "0,1,2,3,4,5"; ReadLine "1,2,3,4,5"]
    = [[1; 2; 3; 4; 5]; [2; 3; 4; 5]]%float
  /\ calculate_calibration_values 0%Z [[1; 2; 3; 4; 5]; [2; 3; 4; 5]]%float
     = Raise InhomogeneousShape
  /\ (forall now_ms v,
        calculate_calibration_values now_ms
          (collect_loop float_of_digits []
             [ReadLine "0,1,2,3,4,5"; ReadLine "1,2,3,4,5"])
        <> Return v).
Proof.
  assert (E : collect_loop float_of_digits []
                [ReadLine "0,1,2,3,4,5"; ReadLine "1,2,3,4,5"]
              = [[1; 2; 3; 4; 5]; [2; 3; 4; 5]]%float)
    by (vm_compute; reflexivity).
  split; [exact E|]. split; [vm_compute; reflexivity|].
  intros now_ms v. rewrite E. discriminate.
Qed.

(** *** A phase without samples *)

Section Phases.
Variable pyfloat : string -> option float.

Lemma collect_empty (reads : list read) :
  collect_loop pyfloat [] reads = [] ->
  collect_calibration_data pyfloat reads = Raise NoSensorData.
Proof. unfold collect_calibration_data. now intros ->. Qed.

Lemma collect_returns (reads : list read) (data : list (list float)) :
  collect_calibration_data pyfloat reads = Return data ->
  data = collect_loop pyfloat [] reads /\ data <> [].
Proof.
  unfold collect_calibration_data.
  destruct (collect_loop pyfloat [] reads) as [|r rs]; [discriminate|].
  intros E. injection E as <-. split; [reflexivity|discriminate].
Qed.

Lemma collect_nonempty (reads : list read) :
  collect_loop pyfloat [] reads <> [] ->
  collect_calibration_data pyfloat reads
  = Return (collect_loop pyfloat [] reads).
Proof.
  unfold collect_calibration_data.
  destruct (collect_loop pyfloat [] reads); [now intros []|reflexivity].
Qed.

Lemma run_returns (connected : bool) (rest_reads flex_reads : list read)
    (now_ms : Z) (user : string) (r : calibration_record) :
  run_full_calibration pyfloat connected rest_reads flex_reads now_ms user
    = Return r ->
  connected = true
  /\ collect_loop pyfloat [] rest_reads <> []
  /\ collect_loop pyfloat [] flex_reads <> [].
Proof.
  unfold run_full_calibration. destruct connected; [|discriminate]. simpl negb.
  cbv iota.
  destruct (collect_calibration_data pyfloat rest_reads) as [d1|e1] eqn:E1;
    [|discriminate].
  cbn [bind].
  destruct (calculate_calibration_values now_ms d1); [|discriminate].
  cbn [bind].
  destruct (collect_calibration_data pyfloat flex_reads) as [d2|e2] eqn:E2;
    [|discriminate].
  intros _.
  destruct (collect_returns _ _ E1) as [-> N1].
  destruct (collect_returns _ _ E2) as [-> N2].
  auto.
Qed.

Lemma calibrator_samples_width (reads : list read) :
  Forall (fun s => List.length s = 5) (calibrator_samples pyfloat reads).
Proof.
  induction reads as [|r reads IH]; simpl; [constructor|].
  destruct (read_sensor_data pyfloat r) as [s|] eqn:E; [|exact IH].
  constructor; [|exact IH]. exact (read_sensor_data_width pyfloat r s E).
Qed.

Lemma calibrator_collect_nonempty (reads : list read) :
  calibrator_samples pyfloat reads <> [] ->
  exists avg, calibrator_collect pyfloat reads = Return avg.
Proof.
  intros Hne. unfold calibrator_collect.
  pose proof (calibrator_samples_width reads) as W.
  destruct (calibrator_samples pyfloat reads) as [|r0 rest]; [now destruct Hne|].
  destruct (rectangular_width 5 r0 rest W) as [Hrect _].
  unfold np_mean_axis0. rewrite Hrect. eauto.
Qed.

Lemma calibrator_collect_empty (reads : list read) :
  calibrator_samples pyfloat reads = [] ->
  calibrator_collect pyfloat reads = Raise NoSensorData.
Proof. unfold calibrator_collect. now intros ->. Qed.

Lemma calibrator_run_returns (connected : bool)
    (rest_reads flex_reads : list read) (now_ms : Z) (user : string)
    (r : calibration_record) :
  calibrator_run_full_calibration pyfloat connected rest_reads flex_reads
    now_ms user = Return r ->
  connected = true
  /\ calibrator_samples pyfloat rest_reads <> []
  /\ calibrator_samples pyfloat flex_reads <> [].
Proof.
  unfold calibrator_run_full_calibration.
  destruct connected; [|discriminate]. simpl negb. cbv iota.
  unfold calibrator_collect.
  destruct (calibrator_samples pyfloat rest_reads) as [|a1 l1]; [discriminate|].
  destruct (np_mean_axis0 a1 l1); [|discriminate]. cbn [bind].
  destruct (calibrator_samples pyfloat flex_reads) as [|a2 l2]; [discriminate|].
  intros _. repeat split; discriminate.
Qed.

End Phases.

Lemma calculate_returns (now_ms : Z) (data : list (list float)) :
  data <> [] -> rectangular data = true ->
  exists v, calculate_calibration_values now_ms data = Return v.
Proof.
  intros Hne Hrect. destruct data as [|r0 rest]; [now destruct Hne|].
  unfold calculate_calibration_values, np_mean_axis0, np_max_axis0, np_min_axis0.
  rewrite Hrect. cbn [bind]. eauto.
Qed.

(** C8. In both scripts a phase that collected no sample makes the run
    raise, with the message [No sensor data collected!] when that phase is
    reached, and no record is saved; a record is saved only when both
    phases collected at least one sample. *)
Theorem calibration_needs_samples (pyfloat : string -> option float)
    (connected : bool) (rest_reads flex_reads : list read) (now_ms : Z)
    (user : string) :
  (collect_loop pyfloat [] rest_reads = [] ->
   run_full_calibration pyfloat true rest_reads flex_reads now_ms user
     = Raise NoSensorData)
  /\ (collect_loop pyfloat [] rest_reads <> [] ->
      rectangular (collect_loop pyfloat [] rest_reads) = true ->
      collect_loop pyfloat [] flex_reads = [] ->
      run_full_calibration pyfloat true rest_reads flex_reads now_ms user
        = Raise NoSensorData)
  /\ (collect_loop pyfloat [] rest_reads = []
        \/ collect_loop pyfloat [] flex_reads = [] ->
      (exists e,
          run_full_calibration pyfloat connected rest_reads flex_reads now_ms user
            = Raise e)
      /\ saved_calibration pyfloat connected rest_reads flex_reads now_ms user
           = None)
  /\ (forall r,
        saved_calibration pyfloat connected rest_reads flex_reads now_ms user
          = Some r ->
        collect_loop pyfloat [] rest_reads <> []
        /\ collect_loop pyfloat [] flex_reads <> [])
  /\ (calibrator_samples pyfloat rest_reads = []
        \/ calibrator_samples pyfloat flex_reads = [] ->
      calibrator_run_full_calibration pyfloat true rest_reads flex_reads
        now_ms user = Raise NoSensorData
      /\ calibrator_saved_calibration pyfloat connected rest_reads flex_reads
           now_ms user = None)
  /\ (forall r,
        calibrator_saved_calibration pyfloat connected rest_reads flex_reads
          now_ms user = Some r ->
        calibrator_samples pyfloat rest_reads <> []
        /\ calibrator_samples pyfloat flex_reads <> [])
  /\ error_message NoSensorData = "No sensor data collected!".
Proof.
  assert (Conv : forall r,
        saved_calibration pyfloat connected rest_reads flex_reads now_ms user
          = Some r ->
        collect_loop pyfloat [] rest_reads <> []
        /\ collect_loop pyfloat [] flex_reads <> []).
  { intros r. unfold saved_calibration.
    destruct (run_full_calibration pyfloat connected rest_reads flex_reads
                now_ms user) as [r'|e] eqn:E; [|discriminate].
    intros _. now destruct (run_returns pyfloat _ _ _ _ _ _ E) as (_ & ? & ?). }
  assert (ConvC : forall r,
        calibrator_saved_calibration pyfloat connected rest_reads flex_reads
          now_ms user = Some r ->
        calibrator_samples pyfloat rest_reads <> []
        /\ calibrator_samples pyfloat flex_reads <> []).
  { intros r. unfold calibrator_saved_calibration.
    destruct (calibrator_run_full_calibration pyfloat connected rest_reads
                flex_reads now_ms user) as [r'|e] eqn:E; [|discriminate].
    intros _.
    now destruct (calibrator_run_returns pyfloat _ _ _ _ _ _ E) as (_ & ? & ?). }
  split.
  { intros H. unfold run_full_calibration. simpl negb. cbv iota.
    now rewrite (collect_empty pyfloat rest_reads H). }
  split.
  { intros Hne Hrect Hflex. unfold run_full_calibration. simpl negb. cbv iota.
    rewrite (collect_nonempty pyfloat rest_reads Hne). cbn [bind].
    destruct (calculate_returns now_ms _ Hne Hrect) as [v ->]. cbn [bind].
    now rewrite (collect_empty pyfloat flex_reads Hflex). }
  split.
  { intros H.
    destruct (saved_calibration pyfloat connected rest_reads flex_reads now_ms user)
      as [r|] eqn:S.
    - destruct (Conv r eq_refl) as [N1 N2]. destruct H; contradiction.
    - split; [|reflexivity]. unfold saved_calibration in S.
      destruct (run_full_calibration pyfloat connected rest_reads flex_reads
                  now_ms user) as [r|e]; [discriminate|eauto]. }
  split; [exact Conv|].
  split.
  { intros H. split.
    - unfold calibrator_run_full_calibration. simpl negb. cbv iota.
      destruct (calibrator_samples pyfloat rest_reads) as [|a l] eqn:R.
      + now rewrite (calibrator_collect_empty pyfloat rest_reads R).
      + destruct H as [H|H]; [discriminate H|].
        assert (Hne : calibrator_samples pyfloat rest_reads <> [])
          by (rewrite R; discriminate).
        destruct (calibrator_collect_nonempty pyfloat rest_reads Hne)
          as [avg ->]. cbn [bind].
        now rewrite (calibrator_collect_empty pyfloat flex_reads H).
    - destruct (calibrator_saved_calibration pyfloat connected rest_reads
                  flex_reads now_ms user) as [r|] eqn:S; [|reflexivity].
      destruct (ConvC r eq_refl) as [N1 N2]. destruct H; contradiction. }
  split; [exact ConvC|reflexivity].
Qed.

(** The rest phase reads nothing. *)
Lemma calibration_needs_samples_witness :
  run_full_calibration float_of_digits true [] [ReadLine "0,1,2,3,4,5"] 0%Z "user"
    = Raise NoSensorData
  /\ saved_calibration float_of_digits true [] [ReadLine "0,1,2,3,4,5"] 0%Z "user"
     = None
  /\ calibrator_run_full_calibration float_of_digits true
       [ReadLine "1,2,3,4,5"] [ReadFails] 0%Z "user"
     = Raise NoSensorData.
Proof.
  destruct (calibration_needs_samples float_of_digits true []
              [ReadLine "0,1,2,3,4,5"] 0%Z "user")
    as (Hrest & _ & Hany & _).
  destruct (calibration_needs_samples float_of_digits true
              [ReadLine "1,2,3,4,5"] [ReadFails] 0%Z "user")
    as (_ & _ & _ & _ & Hcal & _).
  split; [|split].
  - apply Hrest. reflexivity.
  - apply Hany. left. reflexivity.
  - apply Hcal. right. reflexivity.
Defined.

End CalibrationFacts.

(** ** More on the reader loop of glove_logger.py *)

Module SegmenterMore.
Import PyStr PyStrFacts GloveLogger GloveLoggerMain Segmenter Sink.

Lemma written_from_data_line (lines : list string) (r : list string) :
  In r (written (snd (serial_reader lines))) ->
  exists l, In l lines /\ classify l = Data /\ r = split l comma.
Proof.
  intros H.
  assert (Hd : In r (data_rows lines)).
  { rewrite <- serial_reader_conserves. apply in_or_app. now left. }
  unfold data_rows in Hd. apply in_map_iff in Hd.
  destruct Hd as (l & E & Hl). apply filter_In in Hl. destruct Hl as [Hin Hd].
  exists l. repeat split; [exact Hin|now apply is_data_true|now symmetry].
Qed.

(** X1. Every row of the store, the header included, has 13 fields. *)
Theorem store_rows_have_13_fields (lines : list string) :
  Forall (fun r => List.length r = 13) (store lines).
Proof.
  unfold store. constructor; [reflexivity|].
  apply Forall_forall. intros r Hr.
  destruct (written_from_data_line lines r Hr) as (l & _ & Hc & ->).
  now apply data_row_width.
Qed.

(** *** What is echoed *)

Lemma echoes_app (o1 o2 : list effect) :
  echoes (o1 ++ o2) = echoes o1 ++ echoes o2.
Proof.
  induction o1 as [|e o1 IH]; simpl; [reflexivity|].
  destruct e; simpl; now rewrite IH.
Qed.

Lemma echoes_rows (rs : list (list string)) : echoes (map WriteRow rs) = [].
Proof. induction rs; simpl; congruence. Qed.

Lemma segment_no_echo (st : reader_state) (parts : list string) :
  echoes (snd (segment st parts)) = [].
Proof.
  unfold segment.
  destruct (String.eqb _ _); cbv zeta beta iota;
    destruct (Nat.eqb _ _); simpl;
    rewrite ?echoes_app, ?echoes_rows; simpl;
    rewrite ?echoes_app, ?echoes_rows; reflexivity.
Qed.

Lemma is_echoed_data (line : string) : classify line = Data -> is_echoed line = true.
Proof.
  intros H. destruct (classify_data_inv line H) as (Hne & Hh & _ & _).
  unfold is_echoed. rewrite Hh.
  destruct (String.eqb_spec line ""); [contradiction|reflexivity].
Qed.

Lemma process_line_echoes (st : reader_state) (line : string) :
  echoes (snd (process_line st line)) = if is_echoed line then [line] else [].
Proof.
  destruct (classify line) eqn:C.
  all: try (assert (Hn : classify line <> Data) by congruence;
            unfold process_line, is_echoed, is_data_row;
            unfold classify in C;
            destruct (String.eqb line ""); [reflexivity|];
            destruct (startswith line "t_s,"); [reflexivity|];
            destruct (startswith line "#"); simpl;
            [rewrite andb_false_r; reflexivity|];
            destruct (count line comma =? 12); [discriminate C|reflexivity]).
  rewrite (process_line_data st line C), (is_echoed_data line C). simpl.
  now rewrite segment_no_echo.
Qed.

(** X2. The reader echoes every line that is neither empty nor a stale
    header, once and in the order of arrival, whatever the segmenter does
    with it. *)
Theorem echoes_are_the_visible_lines (lines : list string) :
  echoes (snd (serial_reader lines)) = filter is_echoed lines.
Proof.
  unfold serial_reader. generalize initial_state.
  induction lines as [|l ls IH]; intros st; [reflexivity|].
  rewrite run_cons. cbn [snd]. rewrite echoes_app, process_line_echoes, IH.
  simpl. now destruct (is_echoed l).
Qed.

(** *** The active trial id *)

Lemma segment_active (st : reader_state) (parts : list string) :
  trial_id_active (fst (segment st parts)) = Some (last_part parts).
Proof.
  unfold segment.
  destruct (String.eqb_spec (last_part parts)
              match trial_id_active st with
              | Some a => a
              | None => last_part parts
              end) as [E|E]; cbv zeta beta iota;
    destruct (Nat.eqb _ _); simpl; congruence.
Qed.

Lemma last_cons_default {A : Type} (xs : list A) (x d : A) :
  List.last (x :: xs) d = List.last xs x.
Proof.
  revert x d. induction xs as [|y ys IH]; intros x d; [reflexivity|].
  change (List.last (x :: y :: ys) d) with (List.last (y :: ys) d).
  now rewrite !IH.
Qed.

Lemma last_in {A : Type} (xs : list A) (d : A) :
  xs <> [] -> In (List.last xs d) xs.
Proof.
  induction xs as [|x xs IH]; intros H; [now destruct H|].
  destruct xs as [|y ys]; [now left|].
  right. apply IH. discriminate.
Qed.

Lemma run_active (lines : list string) (st : reader_state) :
  trial_id_active (fst (run st lines))
  = List.last (map (fun l => Some (tid_of l)) (filter is_data lines))
      (trial_id_active st).
Proof.
  revert st. induction lines as [|l ls IH]; intros st; [reflexivity|].
  rewrite run_cons. cbn [fst]. rewrite IH. simpl filter.
  destruct (is_data l) eqn:D.
  - apply is_data_true in D. rewrite (process_line_data st l D). cbn [fst].
    rewrite segment_active. simpl map. now rewrite last_cons_default.
  - assert (Hn : classify l <> Data)
      by (intros C; apply is_data_true in C; congruence).
    destruct (process_line_not_data st l Hn) as [-> | ->]; reflexivity.
Qed.

(** X3. When the reader stops, the active trial id is the id of the last
    data row received, and it is unset exactly when no data row was
    received. *)
Theorem active_id_is_last_data_row (lines : list string) :
  trial_id_active (fst (serial_reader lines))
    = List.last (map (fun l => Some (tid_of l)) (filter is_data lines)) None
  /\ (trial_id_active (fst (serial_reader lines)) = None
      <-> data_rows lines = []).
Proof.
  assert (E := run_active lines initial_state).
  fold (serial_reader lines) in E. simpl trial_id_active in E at 2.
  split; [exact E|]. rewrite E. unfold data_rows.
  destruct (filter is_data lines) as [|l ls]; [simpl; tauto|].
  split; [|discriminate]. intros H. exfalso.
  assert (I := last_in (map (fun l => Some (tid_of l)) (l :: ls)) None).
  rewrite H in I. apply in_map_iff in I; [|discriminate].
  destruct I as (x & Hx & _). discriminate Hx.
Qed.

(** *** Lines that are not data rows do not matter *)

Lemma run_filter_data (lines : list string) (st : reader_state) :
  fst (run st (filter is_data lines)) = fst (run st lines)
  /\ written (snd (run st (filter is_data lines))) = written (snd (run st lines))
  /\ acks (snd (run st (filter is_data lines))) = acks (snd (run st lines)).
Proof.
  revert st. induction lines as [|l ls IH]; intros st; [auto|].
  simpl filter. destruct (is_data l) eqn:D.
  - rewrite !run_cons. cbn [fst snd]. rewrite !written_app, !acks_app.
    destruct (IH (fst (process_line st l))) as (-> & -> & ->). auto.
  - assert (Hn : classify l <> Data)
      by (intros C; apply is_data_true in C; congruence).
    rewrite (run_cons st l ls). cbn [fst snd].
    rewrite written_app, acks_app.
    destruct (process_line_not_data st l Hn) as [-> | ->]; cbn [fst snd];
      simpl; apply IH.
Qed.

(** X4. Empty lines, comments, stale headers and malformed lines mixed into
    the stream change neither the final state of the segmenter, nor the
    rows written, nor the acknowledgments: the run is that of the data
    lines alone. *)
Theorem other_lines_do_not_matter (lines : list string) :
  fst (serial_reader (filter is_data lines)) = fst (serial_reader lines)
  /\ store (filter is_data lines) = store lines
  /\ acks (snd (serial_reader (filter is_data lines)))
     = acks (snd (serial_reader lines)).
Proof.
  destruct (run_filter_data lines initial_state) as (E1 & E2 & E3).
  unfold store, serial_reader. now rewrite E1, E2, E3.
Qed.

(** *** Every flush carries rows of its own trial id *)

Lemma flushes_app (o1 o2 : list effect) :
  flush_trace o1 -> flushes (o1 ++ o2) = flushes o1 ++ flushes o2.
Proof.
  induction 1 as [|l o _ IH|rs t o _ IH]; simpl.
  - reflexivity.
  - exact IH.
  - rewrite <- app_assoc. simpl. rewrite !flushes_block, IH. reflexivity.
Qed.

Lemma segment_flushes_ok (st : reader_state) (parts : list string) :
  buffer_ok st ->
  buffer_ok (fst (segment st parts))
  /\ Forall flush_ok (flushes (snd (segment st parts))).
Proof.
  intros [Htag Hlen]. unfold segment.
  destruct (String.eqb_spec (last_part parts)
              match trial_id_active st with
              | Some a => a
              | None => last_part parts
              end) as [E|E]; cbv zeta beta iota.
  - assert (Hrows : Forall (fun r => last_part r = last_part parts)
                      (current_rows st ++ [parts])).
    { apply Forall_app. split; [|repeat constructor].
      apply Forall_forall. intros r Hr. rewrite Forall_forall in Htag.
      specialize (Htag r Hr). rewrite Htag in E. now symmetry. }
    rewrite <- E.
    destruct (Nat.eqb_spec (List.length (current_rows st ++ [parts])) ROWS_PER_TRIAL)
      as [L|L]; cbn [fst snd].
    + split.
      * split; [constructor|unfold ROWS_PER_TRIAL; simpl; lia].
      * simpl app.
        change (map WriteRow (current_rows st ++ [parts]) ++ [Saved (last_part parts) 75])
          with (map WriteRow (current_rows st ++ [parts])
                  ++ Saved (last_part parts) 75 :: []).
        rewrite flushes_block. constructor; [|constructor].
        repeat split; simpl; [exact Hrows|now rewrite L|now rewrite L].
    + split; [|constructor].
      split; simpl.
      * apply Forall_forall. intros r Hr. rewrite Forall_forall in Hrows.
        now rewrite (Hrows r Hr).
      * rewrite length_app in *. simpl in *. lia.
  - destruct (trial_id_active st) as [a|] eqn:A; [|now destruct E].
    destruct (Nat.eqb_spec (List.length ([] ++ [parts])) ROWS_PER_TRIAL) as [L|L];
      [discriminate L|]. cbn [fst snd]. split.
    + split; simpl; [repeat constructor|unfold ROWS_PER_TRIAL; lia].
    + change (map WriteRow (current_rows st) ++ [Saved a (List.length (current_rows st))])
        with (map WriteRow (current_rows st)
                ++ Saved a (List.length (current_rows st)) :: []).
      rewrite flushes_block. constructor; [|constructor].
      repeat split; simpl; [|lia].
      apply Forall_forall. intros r Hr. rewrite Forall_forall in Htag.
      specialize (Htag r Hr). now injection Htag.
Qed.

Lemma process_line_flushes_ok (st : reader_state) (line : string) :
  buffer_ok st ->
  buffer_ok (fst (process_line st line))
  /\ Forall flush_ok (flushes (snd (process_line st line))).
Proof.
  intros H. destruct (is_data line) eqn:D.
  - apply is_data_true in D. rewrite (process_line_data st line D). cbn [fst snd].
    apply (segment_flushes_ok st (split line comma) H).
  - assert (Hn : classify line <> Data)
      by (intros C; apply is_data_true in C; congruence).
    destruct (process_line_not_data st line Hn) as [-> | ->]; cbn [fst snd];
      split; try exact H; constructor.
Qed.

Lemma run_flushes_ok (lines : list string) (st : reader_state) :
  buffer_ok st ->
  buffer_ok (fst (run st lines)) /\ Forall flush_ok (flushes (snd (run st lines))).
Proof.
  revert st. induction lines as [|l ls IH]; intros st H.
  - split; [exact H|constructor].
  - rewrite run_cons. cbn [fst snd].
    destruct (process_line_flushes_ok st l H) as [H1 F1].
    destruct (IH _ H1) as [H2 F2]. split; [exact H2|].
    rewrite flushes_app by apply process_line_flush_trace.
    apply Forall_app. now split.
Qed.

(** X5. Every flush of a run holds at most 75 rows, reports their number,
    and holds only rows whose last field is the trial id it reports; the
    rows left in the buffer carry the active trial id. *)
Theorem flushes_are_tagged_with_their_rows (lines : list string) :
  Forall (fun ct =>
            Forall (fun r => last_part r = ct_id ct) (ct_rows ct)
            /\ ct_count ct = List.length (ct_rows ct)
            /\ List.length (ct_rows ct) <= ROWS_PER_TRIAL)
    (flushes (snd (serial_reader lines)))
  /\ Forall (fun r => trial_id_active (fst (serial_reader lines))
                      = Some (last_part r))
       (current_rows (fst (serial_reader lines))).
Proof.
  assert (I : buffer_ok initial_state)
    by (split; [constructor|apply initial_buffer_lt]).
  destruct (run_flushes_ok lines initial_state I) as [[Htag _] F].
  split; [exact F|exact Htag].
Qed.

(** *** A long stream of one trial id *)

Lemma firstn_app_exact {A : Type} (w c : list A) :
  firstn (List.length w) (w ++ c) = w /\ skipn (List.length w) (w ++ c) = c.
Proof.
  induction w as [|a w [IH1 IH2]]; simpl; [auto|]. now rewrite IH1, IH2.
Qed.

Lemma all_data_filter (lines : list string) (t : string) :
  Forall (fun l => classify l = Data /\ tid_of l = t) lines ->
  filter is_data lines = lines.
Proof.
  induction 1 as [|l ls [Hc _] _ IH]; simpl; [reflexivity|].
  apply is_data_true in Hc. now rewrite Hc, IH.
Qed.

Lemma run_same_id (n : nat) :
  forall (lines : list string) (st : reader_state) (t : string),
    List.length lines = n ->
    current_rows st = [] ->
    trial_id_active st = None \/ trial_id_active st = Some t ->
    Forall (fun l => classify l = Data /\ tid_of l = t) lines ->
    acks (snd (run st lines)) = repeat (t, 75) (n / 75)
    /\ List.length (current_rows (fst (run st lines))) = n mod 75.
Proof.
  induction n as [n IH] using lt_wf_ind. intros lines st t Hn Hrows Ha HF.
  destruct (Nat.lt_ge_cases n 75) as [Hlt|Hge].
  - destruct (run_accumulate lines st t Ha HF) as (Hr & _ & Ho).
    { rewrite Hrows, Hn. exact Hlt. }
    rewrite Ho, acks_echo, Hr, Hrows, Nat.div_small, Nat.mod_small by exact Hlt.
    simpl. now rewrite length_map.
  - rewrite <- (firstn_skipn 75 lines) in HF |- *.
    apply Forall_app in HF. destruct HF as [HF1 HF2].
    assert (L1 : List.length (firstn 75 lines) = 75)
      by (rewrite length_firstn; lia).
    assert (L2 : List.length (skipn 75 lines) = n - 75)
      by (rewrite length_skipn; lia).
    rewrite run_app. cbn [fst snd].
    rewrite (run_fill (firstn 75 lines) st t Ha HF1)
      by (rewrite Hrows, ?L1; unfold ROWS_PER_TRIAL; simpl; lia).
    cbn [fst snd].
    destruct (IH (n - 75) ltac:(lia) (skipn 75 lines)
                {| current_rows := []; trial_id_active := Some t |} t
                L2 eq_refl (or_intror eq_refl) HF2) as [A B].
    assert (D : n / 75 = S ((n - 75) / 75)).
    { replace n with ((n - 75) + 1 * 75) at 1 by lia.
      rewrite Nat.div_add by lia. lia. }
    assert (M : n mod 75 = (n - 75) mod 75).
    { replace n with ((n - 75) + 1 * 75) at 1 by lia.
      now rewrite Nat.Div0.mod_add. }
    rewrite B, !acks_app, acks_echo, acks_rows, A, D, M. split; reflexivity.
Qed.

(** X6. A stream of [n] data rows that all carry one trial id is cut into
    [n / 75] flushes of 75 rows, all acknowledged under that id; the first
    [75 * (n / 75)] rows are written in order and the other [n mod 75] rows
    stay in the buffer. *)
Theorem same_id_stream_is_cut_every_75_rows (lines : list string) (t : string) :
  Forall (fun l => classify l = Data /\ tid_of l = t) lines ->
  acks (snd (serial_reader lines))
    = repeat (t, 75) (List.length lines / 75)
  /\ written (snd (serial_reader lines))
     = firstn (75 * (List.length lines / 75))
         (map (fun l => split l comma) lines)
  /\ current_rows (fst (serial_reader lines))
     = skipn (75 * (List.length lines / 75))
         (map (fun l => split l comma) lines)
  /\ List.length (current_rows (fst (serial_reader lines)))
     = List.length lines mod 75.
Proof.
  intros HF.
  destruct (run_same_id (List.length lines) lines initial_state t
              eq_refl eq_refl (or_introl eq_refl) HF) as [A B].
  fold (serial_reader lines) in A, B.
  pose proof (serial_reader_conserves lines) as C.
  unfold data_rows in C. rewrite (all_data_filter lines t HF) in C.
  assert (Lw : List.length (written (snd (serial_reader lines)))
               = 75 * (List.length lines / 75)).
  { assert (L := f_equal (@List.length _) C).
    rewrite length_app, length_map, B in L.
    pose proof (Nat.div_mod_eq (List.length lines) 75). lia. }
  rewrite <- Lw, <- C.
  destruct (firstn_app_exact (written (snd (serial_reader lines)))
              (current_rows (fst (serial_reader lines)))) as [F S].
  rewrite F, S. auto.
Qed.

(** 160 rows of trial 7: two flushes, ten rows left. *)
Lemma same_id_stream_is_cut_every_75_rows_witness :
  acks (snd (serial_reader (repeat (sample_line "7") 160)))
    = repeat ("7", 75) (List.length (repeat (sample_line "7") 160) / 75)
  /\ written (snd (serial_reader (repeat (sample_line "7") 160)))
     = firstn (75 * (List.length (repeat (sample_line "7") 160) / 75))
         (map (fun l => split l comma) (repeat (sample_line "7") 160))
  /\ current_rows (fst (serial_reader (repeat (sample_line "7") 160)))
     = skipn (75 * (List.length (repeat (sample_line "7") 160) / 75))
         (map (fun l => split l comma) (repeat (sample_line "7") 160))
  /\ List.length (current_rows (fst (serial_reader (repeat (sample_line "7") 160))))
     = List.length (repeat (sample_line "7") 160) mod 75.
Proof.
  apply (same_id_stream_is_cut_every_75_rows (repeat (sample_line "7") 160) "7").
  apply sample_lines_data; reflexivity.
Defined.

End SegmenterMore.

(** ** The file text, the command channel and the port choice *)

Module LoggerMainFacts.
Import PyStr PyStrFacts GloveLogger GloveLoggerMain Segmenter Sink.

(** *** Lines without quotes are stored as they were received *)

Lemma plain_parts_not_quoted (s : string) :
  csv_plain s = true ->
  Forall (fun p => Csv.needs_quotes p = false) (split s Csv.comma).
Proof.
  induction s as [|a s IH]; intros H; simpl.
  - repeat constructor.
  - simpl in H. apply andb_prop in H. destruct H as [Ha Hs].
    apply negb_true_iff in Ha.
    specialize (IH Hs).
    destruct (Ascii.eqb a Csv.comma) eqn:E.
    + constructor; [reflexivity|exact IH].
    + destruct (split s Csv.comma) as [|p ps]; [repeat constructor|].
      * simpl. unfold Csv.special. rewrite E. simpl.
        apply orb_false_elim in Ha. destruct Ha as [Ha ->].
        now rewrite Ha.
      * inversion IH as [|? ? Hp Hps]; subst. constructor; [|exact Hps].
        simpl. rewrite Hp. unfold Csv.special. rewrite E. simpl.
        apply orb_false_elim in Ha. destruct Ha as [Ha ->].
        now rewrite Ha.
Qed.

Lemma write_fields_plain (ps : list string) :
  Forall (fun p => Csv.needs_quotes p = false) ps ->
  map Csv.write_field ps = ps.
Proof.
  induction 1 as [|p ps Hp _ IH]; simpl; [reflexivity|].
  unfold Csv.write_field at 1. now rewrite Hp, IH.
Qed.

Lemma writerow_join (r : list string) :
  r <> [EmptyString] ->
  Csv.writerow r
  = (join Csv.comma (map Csv.write_field r)
       ++ String Csv.cr (String Csv.lf EmptyString))%string.
Proof.
  intros H. unfold Csv.writerow.
  destruct r as [|[|c f] [|g rest]]; try reflexivity.
  now destruct H.
Qed.

Lemma writerow_plain_line (line : string) :
  line <> EmptyString -> csv_plain line = true ->
  Csv.writerow (split line comma) = file_line line.
Proof.
  intros Hne Hp.
  assert (Hr : split line comma <> [EmptyString]).
  { intros E. apply Hne. rewrite <- (join_split line comma), E. reflexivity. }
  rewrite (writerow_join _ Hr).
  change comma with Csv.comma.
  rewrite (write_fields_plain _ (plain_parts_not_quoted line Hp)), join_split.
  reflexivity.
Qed.

Lemma file_text_plain_lines (ls : list string) :
  Forall (fun l => is_data l = true /\ csv_plain l = true) ls ->
  Csv.file_text (map (fun l => split l comma) ls) = file_lines ls.
Proof.
  induction 1 as [|l ls [Hd Hp] _ IH]; simpl; [reflexivity|].
  apply is_data_true in Hd.
  destruct (classify_data_inv l Hd) as (Hne & _).
  now rewrite (writerow_plain_line l Hne Hp), IH.
Qed.

Lemma Forall_firstn_keep {A : Type} (P : A -> Prop) (n : nat) (l : list A) :
  Forall P l -> Forall P (firstn n l).
Proof.
  revert n. induction l as [|a l IH]; intros [|n] H; simpl; try constructor.
  - now inversion H.
  - apply IH. now inversion H.
Qed.

(** X7. When no data line holds a quote, a CR or a LF, the file is the
    header line followed by the flushed data lines exactly as they were
    received, each ended by CR LF: the data lines received, in order, less
    the rows still buffered when the reader stops. *)
Theorem file_is_header_then_received_lines (lines : list string) :
  Forall (fun l => csv_plain l = true) (filter is_data lines) ->
  csv_file lines
  = (file_line HEADER
       ++ file_lines
            (firstn (List.length (filter is_data lines)
                     - List.length (current_rows (fst (serial_reader lines))))
               (filter is_data lines)))%string.
Proof.
  intros Hp. unfold csv_file, store. cbn [Csv.file_text].
  assert (Hh : Csv.writerow (split HEADER comma) = file_line HEADER)
    by (vm_compute; reflexivity).
  rewrite Hh. f_equal.
  pose proof (serial_reader_conserves lines) as C. unfold data_rows in C.
  set (w := written (snd (serial_reader lines))) in *.
  set (b := current_rows (fst (serial_reader lines))) in *.
  assert (L : List.length (filter is_data lines) - List.length b = List.length w).
  { assert (E := f_equal (@List.length _) C).
    rewrite length_app, length_map in E. lia. }
  rewrite L.
  assert (W : w = map (fun l => split l comma)
                    (firstn (List.length w) (filter is_data lines))).
  { rewrite <- firstn_map, <- C.
    symmetry. apply (proj1 (SegmenterMore.firstn_app_exact w b)). }
  rewrite W at 1. apply file_text_plain_lines.
  apply Forall_firstn_keep. apply Forall_forall. intros l Hl.
  split; [now apply filter_In in Hl|].
  rewrite Forall_forall in Hp. now apply Hp.
Qed.

(** Two rows of trial 1, a comment, then a row of trial 2. *)
Lemma file_is_header_then_received_lines_witness :
  csv_file [sample_line "1"; sample_line "1"; "# note"; sample_line "2"]
  = (file_line HEADER
       ++ file_line (sample_line "1") ++ file_line (sample_line "1"))%string.
Proof.
  rewrite (file_is_header_then_received_lines
             [sample_line "1"; sample_line "1"; "# note"; sample_line "2"]).
  - vm_compute. reflexivity.
  - vm_compute. repeat constructor.
Defined.

(** *** The command channel *)

Lemma split_app_sep (s rest : string) (c : ascii) :
  count s c = 0 ->
  split (s ++ String c rest)%string c = s :: split rest c.
Proof.
  induction s as [|a s IH]; simpl; intros H.
  - now rewrite Ascii.eqb_refl.
  - destruct (Ascii.eqb a c); [discriminate H|].
    now rewrite (IH H).
Qed.

(** X8. Each command is sent followed by one newline, so that when no
    command holds a newline, cutting what was sent at the newlines gives
    back the commands, in order (and one empty piece after the last
    newline). *)
Theorem commands_are_recovered_by_lines (cmds : list string) :
  Forall (fun cmd => count cmd newline = 0) cmds ->
  split (command_channel cmds) newline = cmds ++ [EmptyString].
Proof.
  induction 1 as [|cmd cmds Hc _ IH]; simpl; [reflexivity|].
  unfold command_bytes. rewrite append_assoc. simpl.
  now rewrite (split_app_sep cmd _ newline Hc), IH.
Qed.

Lemma commands_are_recovered_by_lines_witness :
  split (command_channel ["start"; "label:A"; "trial:3"]) newline
  = ["start"; "label:A"; "trial:3"] ++ [EmptyString].
Proof.
  apply (commands_are_recovered_by_lines ["start"; "label:A"; "trial:3"]).
  repeat constructor.
Defined.

(** *** The port choice *)

Lemma menu_from_nth (ports : list string) (k i : nat) (d : string) :
  nth_error ports i = Some d ->
  nth_error (menu_from k ports) i
  = Some (" [" ++ str_of_nat (k + i) ++ "] " ++ d)%string.
Proof.
  revert k i. induction ports as [|p ports IH]; intros k [|i] H;
    try discriminate H; simpl in *.
  - injection H as ->. now rewrite Nat.add_0_r.
  - rewrite (IH (S k) i H). now rewrite Nat.add_succ_r.
Qed.

(** X9. [pick_port] raises exactly when the number typed is outside
    [-n .. n-1] for [n] listed ports (always when none is listed); any
    device it returns is a listed one; the number shown on a line of the
    menu selects the device of that line, and so does that number less
    [n]. *)
Theorem pick_port_index_range (ports : list string) (sel : Z) :
  (pick_port ports sel = None
   <-> (sel < - Z.of_nat (List.length ports)
        \/ Z.of_nat (List.length ports) <= sel)%Z)
  /\ (forall d, pick_port ports sel = Some d -> In d ports)
  /\ (forall i d,
        nth_error ports i = Some d ->
        nth_error (menu_from 0 ports) i
          = Some (" [" ++ str_of_nat i ++ "] " ++ d)%string
        /\ pick_port ports (Z.of_nat i) = Some d
        /\ pick_port ports (Z.of_nat i - Z.of_nat (List.length ports)) = Some d).
Proof.
  split; [|split].
  - unfold pick_port.
    destruct (Z.leb_spec 0 sel) as [H0|H0].
    + rewrite nth_error_None. lia.
    + destruct (Z.leb_spec (- Z.of_nat (List.length ports)) sel) as [H1|H1].
      * rewrite nth_error_None. lia.
      * split; [lia|reflexivity].
  - intros d. unfold pick_port.
    destruct (0 <=? sel)%Z; [apply nth_error_In|].
    destruct (- Z.of_nat (List.length ports) <=? sel)%Z;
      [apply nth_error_In|discriminate].
  - intros i d H.
    assert (Hi : i < List.length ports)
      by (apply nth_error_Some; congruence).
    split; [exact (menu_from_nth ports 0 i d H)|]. unfold pick_port. split.
    + destruct (Z.leb_spec 0 (Z.of_nat i)) as [_|N]; [|lia].
      now rewrite Nat2Z.id.
    + destruct (Z.leb_spec 0 (Z.of_nat i - Z.of_nat (List.length ports)))
        as [N|_]; [lia|].
      destruct (Z.leb_spec (- Z.of_nat (List.length ports))
                  (Z.of_nat i - Z.of_nat (List.length ports))) as [_|N]; [|lia].
      replace (Z.to_nat (Z.of_nat (List.length ports)
                         + (Z.of_nat i - Z.of_nat (List.length ports))))
        with i by lia.
      exact H.
Qed.

End LoggerMainFacts.

(** ** Port detection *)

Module PortsFacts.
Import Ports.

Section AnyLower.
Variable lower : string -> string.

Lemma capture_scan_first (pre post : list port_info) (p : port_info) :
  Forall (fun q => capture_matches lower q = false) pre ->
  capture_matches lower p = true ->
  capture_scan lower (pre ++ p :: post) = Some (device p).
Proof.
  induction 1 as [|q pre Hq _ IH]; intros Hp; simpl.
  - now rewrite Hp.
  - rewrite Hq. now apply IH.
Qed.

Lemma capture_scan_none (ports : list port_info) :
  capture_scan lower ports = None
  <-> Forall (fun q => capture_matches lower q = false) ports.
Proof.
  induction ports as [|q ports IH]; simpl.
  - split; [constructor|reflexivity].
  - destruct (capture_matches lower q) eqn:E.
    + split; [discriminate|]. intros H. inversion H; congruence.
    + rewrite IH. split; [now constructor|now inversion 1].
Qed.

Lemma capture_scan_in (ports : list port_info) (d : string) :
  capture_scan lower ports = Some d ->
  exists p, In p ports /\ device p = d.
Proof.
  induction ports as [|q ports IH]; simpl; [discriminate|].
  destruct (capture_matches lower q).
  - intros E. injection E as <-. exists q. auto.
  - intros E. destruct (IH E) as (p & Hp & Hd). exists p. auto.
Qed.

(** X10. The detection of calibration_capture.py finds no port only when
    none is listed.  It returns the device of the first listed port that
    matches, and the device of the first listed port when none matches; in
    every case a listed device. *)
Theorem capture_detection_falls_back_to_first_port (ports : list port_info) :
  (capture_auto_detect_port lower ports = None <-> ports = [])
  /\ (forall d,
        capture_auto_detect_port lower ports = Some d ->
        exists p, In p ports /\ device p = d)
  /\ (forall pre p post,
        ports = pre ++ p :: post ->
        Forall (fun q => capture_matches lower q = false) pre ->
        capture_matches lower p = true ->
        capture_auto_detect_port lower ports = Some (device p))
  /\ (forall p rest,
        ports = p :: rest ->
        Forall (fun q => capture_matches lower q = false) ports ->
        capture_auto_detect_port lower ports = Some (device p)).
Proof.
  unfold capture_auto_detect_port. repeat split.
  - destruct (capture_scan lower ports); [discriminate|].
    destruct ports; [reflexivity|discriminate].
  - now intros ->.
  - intros d. destruct (capture_scan lower ports) as [d'|] eqn:E.
    + intros H. injection H as <-. exact (capture_scan_in ports d' E).
    + destruct ports as [|p rest]; [discriminate|].
      intros H. injection H as <-. exists p. split; [now left|reflexivity].
  - intros pre p post -> Hpre Hp.
    now rewrite (capture_scan_first pre post p Hpre Hp).
  - intros p rest -> Hnone.
    apply capture_scan_none in Hnone. now rewrite Hnone.
Qed.

End AnyLower.

(** X11. The detection of python_calibration.py returns the device of the
    first listed port whose description holds [USB] or [Serial], and finds
    no port exactly when no description does, also when ports are
    listed. *)
Theorem calibrator_detection_needs_a_match (ports : list port_info) :
  (calibrator_auto_detect_port ports = None
   <-> Forall (fun q => calibrator_matches q = false) ports)
  /\ (forall pre p post,
        ports = pre ++ p :: post ->
        Forall (fun q => calibrator_matches q = false) pre ->
        calibrator_matches p = true ->
        calibrator_auto_detect_port ports = Some (device p))
  /\ (forall d,
        calibrator_auto_detect_port ports = Some d ->
        exists p, In p ports /\ device p = d /\ calibrator_matches p = true).
Proof.
  split; [|split].
  - induction ports as [|q ports IH]; simpl.
    + split; [constructor|reflexivity].
    + destruct (calibrator_matches q) eqn:E.
      * split; [discriminate|]. intros H. inversion H; congruence.
      * rewrite IH. split; [now constructor|now inversion 1].
  - intros pre p post -> Hpre Hp.
    induction Hpre as [|q pre Hq _ IH]; simpl.
    + now rewrite Hp.
    + now rewrite Hq.
  - intros d. induction ports as [|q ports IH]; simpl; [discriminate|].
    destruct (calibrator_matches q) eqn:E.
    + intros H. injection H as <-. exists q. auto.
    + intros H. destruct (IH H) as (p & Hp & Hd & Hm). exists p. auto.
Qed.

(** A port described in lower case: found by the first script through its
    description and its name, not found by the second. *)
Example detection_differs :
  capture_auto_detect_port ascii_lower
    [mkPort "/dev/cu.Bluetooth" "n/a"; mkPort "/dev/ttyUSB0" "usb serial"]
    = Some "/dev/ttyUSB0"
  /\ calibrator_auto_detect_port
       [mkPort "/dev/cu.Bluetooth" "n/a"; mkPort "/dev/ttyUSB0" "usb serial"]
     = None.
Proof. vm_compute. split; reflexivity. Qed.

End PortsFacts.

(** ** The comparison of floats is an order on the numbers that are not NaN *)

Module FloatOrder.
Import SpecFloat FloatRank.












End FloatOrder.

(** ** More on the calibration scripts *)

Module CalibrationMore.
Import PyStr PyStrFacts Calibration CalibrationFacts Normalization Extremes.
Import PrimFloat.

(** *** The width of the samples *)

Lemma collect_loop_keeps (pyfloat : string -> option float)
    (P : list float -> Prop) (reads : list read) (data : list (list float)) :
  (forall line s, sample_of_line pyfloat line = Some s -> P s) ->
  Forall P data ->
  Forall P (collect_loop pyfloat data reads).
Proof.
  intros HP. revert data. induction reads as [|r reads IH]; intros data H;
    simpl; [exact H|].
  destruct r as [line|]; [|exact H].
  destruct (sample_of_line pyfloat line) as [s|] eqn:E; apply IH; [|exact H].
  apply Forall_app. split; [exact H|]. constructor; [|constructor].
  exact (HP line s E).
Qed.

(** X12. In calibration_capture.py every collected sample has four or five
    values: five exactly when the line has at least six numbers, four
    exactly when it has five. *)
Theorem capture_samples_have_4_or_5_values (pyfloat : string -> option float)
    (reads : list read) :
  Forall (fun s => List.length s = 4 \/ List.length s = 5)
    (collect_loop pyfloat [] reads)
  /\ (forall line s,
        sample_of_line pyfloat line = Some s ->
        exists values,
          parse_values pyfloat (split line ","%char) = Some values
          /\ (List.length s = 5 <-> 6 <= List.length values)
          /\ (List.length s = 4 <-> List.length values = 5)).
Proof.
  assert (W : forall line s,
             sample_of_line pyfloat line = Some s ->
             exists values,
               parse_values pyfloat (split line ","%char) = Some values
               /\ (List.length s = 5 <-> 6 <= List.length values)
               /\ (List.length s = 4 <-> List.length values = 5)).
  { intros line s E.
    destruct (sample_of_line_width pyfloat line s E) as (values & Hp & H5 & _ & L).
    exists values. split; [exact Hp|]. lia. }
  split; [|exact W].
  apply collect_loop_keeps; [|constructor].
  intros line s E.
  destruct (sample_of_line_width pyfloat line s E) as (values & _ & H5 & _ & L).
  lia.
Qed.

(** *** A read that raises *)

Lemma calibrator_samples_app (pyfloat : string -> option float)
    (r1 r2 : list read) :
  calibrator_samples pyfloat (r1 ++ r2)
  = calibrator_samples pyfloat r1 ++ calibrator_samples pyfloat r2.
Proof.
  induction r1 as [|r r1 IH]; simpl; [reflexivity|].
  destruct (read_sensor_data pyfloat r); simpl; now rewrite IH.
Qed.

(** X13. A read that raises ends the collection of calibration_capture.py:
    the samples are those collected before it, whatever arrives later.  In
    python_calibration.py the failed read is skipped and the later reads
    are still collected. *)
Theorem read_failure_stops_capture_not_calibrator
    (pyfloat : string -> option float) (before after : list read)
    (data : list (list float)) :
  collect_loop pyfloat data (before ++ ReadFails :: after)
    = collect_loop pyfloat data before
  /\ calibrator_samples pyfloat (before ++ ReadFails :: after)
     = calibrator_samples pyfloat before ++ calibrator_samples pyfloat after.
Proof.
  split.
  - revert data. induction before as [|r before IH]; intros data; simpl.
    + reflexivity.
    + destruct r as [line|]; [|reflexivity].
      destruct (sample_of_line pyfloat line); apply IH.
  - now rewrite calibrator_samples_app.
Qed.

(** *** The reductions in closed form *)

Lemma mean_by_channel (k : nat) (r0 : list float) (rest : list (list float)) :
  Forall (fun r => List.length r = k) (r0 :: rest) ->
  np_mean_axis0 r0 rest
  = Return (map (fun j => mean (channel j (r0 :: rest))) (seq 0 k)).
Proof.
  intros Hk.
  destruct (rectangular_width k r0 rest Hk) as [Hrect Hrest].
  assert (L0 : List.length r0 = k) by (now inversion Hk).
  unfold np_mean_axis0. rewrite Hrect.
  rewrite (reduce_rows_by_channel _ rest r0 Hrest), L0, map_map.
  f_equal. apply map_ext. intros j. unfold mean. rewrite channel_cons.
  now rewrite <- channel_length with (j := j).
Qed.

Lemma calculate_by_channel (now_ms : Z) (k : nat) (data : list (list float)) :
  data <> [] ->
  Forall (fun r => List.length r = k) data ->
  calculate_calibration_values now_ms data
  = Return (mkValues
              (map (fun j => mean (channel j data)) (seq 0 k))
              (map (fun j => maximum (channel j data)) (seq 0 k))
              (map (fun j => minimum (channel j data)) (seq 0 k))
              now_ms).
Proof.
  intros Hne Hk. destruct data as [|r0 rest]; [now destruct Hne|].
  unfold calculate_calibration_values.
  rewrite (mean_by_channel k r0 rest Hk). cbn [bind].
  destruct (rectangular_width k r0 rest Hk) as [Hrect Hrest].
  assert (L0 : List.length r0 = k) by (now inversion Hk).
  unfold np_max_axis0, np_min_axis0. rewrite Hrect. cbn [bind].
  rewrite !(reduce_rows_by_channel _ rest r0 Hrest), L0. reflexivity.
Qed.

Lemma map_seq_nth {A : Type} (f : nat -> A) (d : A) (k j : nat) :
  j < k -> nth j (map f (seq 0 k)) d = f j.
Proof.
  intros H.
  rewrite (nth_indep _ d (f 0)) by (now rewrite length_map, length_seq).
  etransitivity; [apply (map_nth f (seq 0 k) 0 j)|].
  now rewrite seq_nth.
Qed.

(** X14. For non-empty samples of one width [k], the three lists the
    reduction returns have [k] entries, and the maximum and the minimum of
    each channel are values that were sampled on that channel. *)
Theorem extremes_are_sampled_values (now_ms : Z) (k : nat)
    (data : list (list float)) :
  data <> [] ->
  Forall (fun r => List.length r = k) data ->
  exists v,
    calculate_calibration_values now_ms data = Return v
    /\ List.length (sensorBaselines v) = k
    /\ List.length (sensorMaximums v) = k
    /\ List.length (sensorMinimums v) = k
    /\ (forall j, j < k ->
          In (nth j (sensorMaximums v) zero) (channel j data)
          /\ In (nth j (sensorMinimums v) zero) (channel j data)).
Proof.
  intros Hne Hk. eexists. split; [exact (calculate_by_channel now_ms k data Hne Hk)|].
  cbn [sensorBaselines sensorMaximums sensorMinimums].
  rewrite !length_map, !length_seq. repeat split.
  - rewrite map_seq_nth by assumption. apply maximum_in.
    destruct data; [now destruct Hne|discriminate].
  - rewrite map_seq_nth by assumption. apply minimum_in.
    destruct data; [now destruct Hne|discriminate].
Qed.

Lemma extremes_are_sampled_values_witness :
  exists v,
    calculate_calibration_values 0%Z [[1; 9]; [4; 2]; [3; 5]]%float = Return v
    /\ List.length (sensorBaselines v) = 2
    /\ List.length (sensorMaximums v) = 2
    /\ List.length (sensorMinimums v) = 2
    /\ (forall j, j < 2 ->
          In (nth j (sensorMaximums v) zero)
             (channel j [[1; 9]; [4; 2]; [3; 5]]%float)
          /\ In (nth j (sensorMinimums v) zero)
               (channel j [[1; 9]; [4; 2]; [3; 5]]%float)).
Proof.
  apply (extremes_are_sampled_values 0%Z 2 [[1; 9]; [4; 2]; [3; 5]]%float).
  - discriminate.
  - repeat constructor.
Defined.

(** *** The maximum and the minimum of a channel *)











Example reduction_of_three_samples :
  match calculate_calibration_values 0%Z
          [[3; 1; 4; 1; 5]; [9; 2; 6; 5; 3]; [0.5; 8; 9; 5; 9]]%float with
  | Return v =>
      sensorMaximums v = [9; 8; 9; 5; 9]%float
      /\ sensorMinimums v = [0.5; 1; 4; 1; 3]%float
  | Raise _ => False
  end.
Proof. vm_compute. split; reflexivity. Qed.

(** *** The record of a successful run *)



Example capture_record_example :
  run_full_calibration float_of_digits true
    [ReadLine "0,10,20,30,40,50,7"; ReadLine "1,30,40,50,60,70,7"]
    [ReadLine "# fist"; ReadLine "2,90,80,70,60,50,7"; ReadLine "3,100,70,80,50,60,7"]
    1700000000000%Z "ada"
  = Return
      (mkRecord "ada" true
         (mkData [20; 30; 40; 50; 60]%float [100; 80; 80; 60; 60]%float
            1700000000000%Z)).
Proof. vm_compute. reflexivity. Qed.



(** *** Samples of different widths *)

Lemma calculate_not_rectangular (now_ms : Z) (data : list (list float)) :
  rectangular data = false ->
  calculate_calibration_values now_ms data = Raise InhomogeneousShape.
Proof.
  intros H. destruct data as [|r0 rest]; [discriminate H|].
  unfold calculate_calibration_values, np_mean_axis0. now rewrite H.
Qed.

(** X17. calibration_capture.py: when the samples of a phase do not all
    have one width (a line of five numbers among lines of six or more),
    the phase's reduction raises, so the run fails and no record is
    saved. *)
Theorem mixed_sample_widths_fail_the_run (pyfloat : string -> option float)
    (connected : bool) (rest_reads flex_reads : list read) (now_ms : Z)
    (user : string) :
  rectangular (collect_loop pyfloat [] rest_reads) = false
  \/ (collect_loop pyfloat [] rest_reads <> []
      /\ rectangular (collect_loop pyfloat [] rest_reads) = true
      /\ rectangular (collect_loop pyfloat [] flex_reads) = false) ->
  run_full_calibration pyfloat true rest_reads flex_reads now_ms user
    = Raise InhomogeneousShape
  /\ saved_calibration pyfloat connected rest_reads flex_reads now_ms user = None.
Proof.
  intros H.
  assert (E : run_full_calibration pyfloat true rest_reads flex_reads now_ms user
              = Raise InhomogeneousShape).
  { unfold run_full_calibration. simpl negb. cbv iota.
    destruct H as [R | (N1 & R1 & R2)].
    - assert (N : collect_loop pyfloat [] rest_reads <> [])
        by (intros Z0; rewrite Z0 in R; discriminate R).
      rewrite (collect_nonempty pyfloat rest_reads N). cbn [bind].
      now rewrite (calculate_not_rectangular now_ms _ R).
    - rewrite (collect_nonempty pyfloat rest_reads N1). cbn [bind].
      destruct (calculate_returns now_ms _ N1 R1) as [v ->]. cbn [bind].
      assert (N : collect_loop pyfloat [] flex_reads <> [])
        by (intros Z0; rewrite Z0 in R2; discriminate R2).
      rewrite (collect_nonempty pyfloat flex_reads N). cbn [bind].
      now rewrite (calculate_not_rectangular now_ms _ R2). }
  split; [exact E|].
  unfold saved_calibration. destruct connected; [now rewrite E|reflexivity].
Qed.

Lemma mixed_sample_widths_fail_the_run_witness :
  run_full_calibration float_of_digits true
    [ReadLine "0,10,20,30,40,50"; ReadLine "10,20,30,40,50"]
    [ReadLine "0,90,80,70,60,50"] 0%Z "ada"
    = Raise InhomogeneousShape
  /\ saved_calibration float_of_digits true
       [ReadLine "0,10,20,30,40,50"; ReadLine "10,20,30,40,50"]
       [ReadLine "0,90,80,70,60,50"] 0%Z "ada" = None.
Proof.
  apply (mixed_sample_widths_fail_the_run float_of_digits true
           [ReadLine "0,10,20,30,40,50"; ReadLine "10,20,30,40,50"]
           [ReadLine "0,90,80,70,60,50"] 0%Z "ada").
  left. vm_compute. reflexivity.
Defined.

End CalibrationMore.

(** ** The normalized readings of [test_calibration] *)

Module NormalizationFacts.
Import Calibration CalibrationFacts Normalization.
Import PrimFloat.







Example normalized_example :
  normalize [450; 512; 700; 100]%float [300; 300; 300; 300]%float
            [600; 300; 600; 600]%float
  = Some [0.5; 1; 1; 0]%float.
Proof. vm_compute. reflexivity. Qed.



Example capture_test_line_examples :
  capture_test_line float_of_digits [0; 0; 0; 0; 0]%float
    [40; 40; 40; 40; 40]%float "10,20,30,40,50,60"
    = Some ([20; 30; 40; 50; 60]%float, [0.5; 0.75; 1; 1; 1]%float)
  /\ capture_test_line float_of_digits [0; 0; 0; 0; 0]%float
       [40; 40; 40; 40; 40]%float "20,30,40,50,60" = None.
Proof. vm_compute. split; reflexivity. Qed.

End NormalizationFacts.
